(** * An object store over a key-value backend: db.go and object.go

    The repository holds two copies of the store.  [src/db.go] (with
    [src/object.go]) and [src/unnamed/part_000] (with
    [src/unnamed/part_004]) agree on [getKind], [extractObject],
    [GetObjectByID] and [DeleteObject]; they differ in [Store] and in
    [listObjects].  What they share is defined once; what differs lives in
    the modules [DbGo] and [Part000]. *)

From Stdlib Require Import Ascii String.
From stdpp Require Import gmap strings list fin_maps.

(** ** Errors

    Every error of the package is built with [errors.New]; it is kept by its
    text.  The other two constructors are what the libraries hand back. *)
Inductive error : Type :=
| errors_New (text : string)
| json_error
| redis_Nil.

#[global] Instance error_eq_dec : EqDecision error.
Proof. solve_decision. Defined.

(** A Go function that returns [(T, error)] with the value meaningful only
    when the error is nil. *)
Inductive result (A : Type) : Type :=
| Ok (a : A)
| Err (e : error).
Arguments Ok {A} a.
Arguments Err {A} e.

(** ** package strings *)

(** [strings.HasPrefix(s, prefix)]. *)
Fixpoint strings_HasPrefix (s prefix : string) {struct prefix} : bool :=
  match prefix with
  | EmptyString => true
  | String p prefix' =>
      match s with
      | EmptyString => false
      | String c s' => (c =? p)%char && strings_HasPrefix s' prefix'
      end
  end.

(** [strings.Contains(s, substr)]: [substr] starts at some position of [s]. *)
Fixpoint strings_Contains (s substr : string) : bool :=
  strings_HasPrefix s substr ||
  match s with
  | EmptyString => false
  | String _ s' => strings_Contains s' substr
  end.

(** The loop of [strings.Count]: find the next occurrence, count it, and go on
    after it.  [skip] is the number of characters of the occurrence just
    counted that are still to be stepped over. *)
Fixpoint Count_from (skip : nat) (s substr : string) : nat :=
  match s with
  | EmptyString => 0
  | String _ s' =>
      match skip with
      | S k => Count_from k s' substr
      | O =>
          if strings_HasPrefix s substr
          then S (Count_from (String.length substr - 1) s' substr)
          else Count_from 0 s' substr
      end
  end.

(** [strings.Count(s, substr)] for a non-empty [substr]: the number of
    non-overlapping occurrences.  db.go calls it with ["::"] only. *)
Definition strings_Count (s substr : string) : nat := Count_from 0 s substr.

(** ** package regexp: the expression of getKind

    The expression is: start of text, any characters (greedy), two colons,
    group 1 of any characters, end of text.  Go's dot matches every character
    but the newline, and its dollar (no m flag) only the end of the text. *)
Definition dot (c : ascii) : bool := negb (c =? "010")%char.

(** Group 1 up to the end of the text: the dot must accept all that is left. *)
Fixpoint dots_to_end (s : string) : bool :=
  match s with
  | EmptyString => true
  | String c s' => dot c && dots_to_end s'
  end.

(** The expression from a position on, by backtracking: the greedy first
    star takes one more character, and gives it back when the rest does not
    match.  The result is the text of group 1. *)
Fixpoint match_kind (s : string) : option string :=
  match s with
  | EmptyString => None
  | String c s' =>
      match (if dot c then match_kind s' else None) with
      | Some group => Some group
      | None =>
          match c, s' with
          | ":"%char, String ":"%char rest =>
              if dots_to_end rest then Some rest else None
          | _, _ => None
          end
      end
  end.

(** [re.FindStringSubmatch(key)]: the whole match and group 1, or nil.  The
    expression is anchored at both ends, so the whole match is the key. *)
Definition FindStringSubmatch (key : string) : list string :=
  match match_kind key with
  | Some group => [key; group]
  | None => []
  end.

Definition getKind (key : string) : string :=
  let matches := FindStringSubmatch key in
  match matches with
  | _ :: group :: _ => group
  | _ => ""
  end.

(** ** The backend's pattern matching *)

(** Modelled from the spec: the backend's [keys(pattern)] is described as
    glob-style matching with the [*] wildcard.  [*] stands for any run of
    characters, the empty one too; every other character stands for itself. *)
Fixpoint glob (pattern s : string) : bool :=
  match pattern with
  | EmptyString =>
      match s with
      | EmptyString => true
      | String _ _ => false
      end
  | String p pattern' =>
      if (p =? "*")%char
      then (fix star (s : string) : bool :=
              glob pattern' s ||
              match s with
              | EmptyString => false
              | String _ s' => star s'
              end) s
      else match s with
           | EmptyString => false
           | String c s' => (p =? c)%char && glob pattern' s'
           end
  end.

(** [fmt.Sprintf] with the three formats of db.go. *)
Definition id_pattern (id : string) : string := id +:+ "::*::*".
Definition name_pattern (name : string) : string := "*::" +:+ name +:+ "::*".
Definition kind_pattern (kind : string) : string := "*::*::" +:+ kind.

(** ** package encoding/json

    A payload is kept in parsed form.  [Invalid] is any text that is not JSON;
    [Literal] is a JSON text that is not an object; [JObject] lists the
    members of an object in the order of the text.  Of a member's value only
    what a string or time field can tell apart is kept: null, a string, or
    anything else.  Strings are taken to be valid UTF-8, which the encoder
    writes and reads back as they are. *)
Inductive JValue : Type :=
| JNull
| JString (s : string)
| JOther.

Inductive Document : Type :=
| Invalid
| Literal (v : JValue)
| JObject (members : list (string * JValue)).

#[global] Instance JValue_eq_dec : EqDecision JValue.
Proof. solve_decision. Defined.
#[global] Instance Document_eq_dec : EqDecision Document.
Proof. solve_decision. Defined.

(** The decoder matches a member to a field by its tag without regard to
    case.  All tags of object.go are lower-case ASCII. *)
Definition to_lower (c : ascii) : ascii :=
  let n := nat_of_ascii c in
  if (65 <=? n)%nat && (n <=? 90)%nat then ascii_of_nat (n + 32) else c.

Fixpoint fold_name (name : string) : string :=
  match name with
  | EmptyString => EmptyString
  | String c name' => String (to_lower c) (fold_name name')
  end.

(** Storing one JSON value into a field of type string: null leaves the field
    as it is, anything but a string is a type error. *)
Definition store_string (old : string) (v : JValue) : result string :=
  match v with
  | JNull => Ok old
  | JString s => Ok s
  | JOther => Err json_error
  end.

(** [time.Time], of which the store only uses the zero value and the JSON
    methods.  [Time_MarshalJSON] gives the RFC 3339 text without the quotes
    (years outside 0..9999, which it refuses, are left out);
    [Time_UnmarshalJSON] parses such a text. *)
Class TimeJSON (Time : Type) : Type := {
  Time_zero : Time;
  Time_MarshalJSON : Time -> string;
  Time_UnmarshalJSON : string -> option Time;
}.

Definition store_time {Time} `{TimeJSON Time} (old : Time) (v : JValue)
    : result Time :=
  match v with
  | JNull => Ok old
  | JString s =>
      match Time_UnmarshalJSON s with
      | Some t => Ok t
      | None => Err json_error
      end
  | JOther => Err json_error
  end.

(** ** object.go: the two record types *)

Module Person.
Record t (Time : Type) : Type := mk {
  Name : string;
  ID : string;
  LastName : string;
  Birthday : string;
  BirthDate : Time;
}.
Arguments mk {Time}.
Arguments Name {Time}.
Arguments ID {Time}.
Arguments LastName {Time}.
Arguments Birthday {Time}.
Arguments BirthDate {Time}.
End Person.

Module Animal.
Record t : Type := mk {
  Name : string;
  ID : string;
  Type_ : string;
  OwnerID : string;
}.
End Animal.

Abbreviation Person := Person.t.
Abbreviation Animal := Animal.t.

(** The [Object] interface.  A method with a pointer receiver that assigns to
    a field returns the record after the assignment. *)
Class Object (T : Type) : Type := {
  GetKind : T -> string;
  GetID : T -> string;
  GetName : T -> string;
  SetID : T -> string -> T;
  SetName : T -> string -> T * option error;
}.

(** [json.Marshal] works on any value by reflection; it is kept apart from the
    interface. *)
Class Marshal (T : Type) : Type := {
  json_Marshal : T -> result Document;
}.

(** The backend: a map from keys to payloads. *)
Abbreviation RedisDB := (gmap string Document).

Section Store.
Context {Time : Type} `{TimeJSON Time}.

(** [reflect.TypeOf(p).String()] of a pointer to a struct of package main. *)
#[export] Instance Person_Object : Object (Person Time) := {
  GetKind p := "*main.Person";
  GetID p := Person.ID p;
  GetName p := Person.Name p;
  SetID p s :=
    Person.mk (Person.Name p) s (Person.LastName p) (Person.Birthday p)
      (Person.BirthDate p);
  SetName p s :=
    if strings_Contains s "::"
    then (p, Some (errors_New "name contains a restricted special character ::"))
    else (Person.mk s (Person.ID p) (Person.LastName p) (Person.Birthday p)
            (Person.BirthDate p), None);
}.

#[export] Instance Animal_Object : Object Animal := {
  GetKind p := "*main.Animal";
  GetID p := Animal.ID p;
  GetName p := Animal.Name p;
  SetID p s := Animal.mk (Animal.Name p) s (Animal.Type_ p) (Animal.OwnerID p);
  SetName p s :=
    if strings_Contains s "::"
    then (p, Some (errors_New "name contains a restricted special character ::"))
    else (Animal.mk s (Animal.ID p) (Animal.Type_ p) (Animal.OwnerID p), None);
}.

(** The members follow the fields and their json tags. *)
#[export] Instance Person_Marshal : Marshal (Person Time) := {
  json_Marshal p :=
    Ok (JObject [("name", JString (Person.Name p));
                 ("id", JString (Person.ID p));
                 ("last_name", JString (Person.LastName p));
                 ("birthday", JString (Person.Birthday p));
                 ("birthdate", JString (Time_MarshalJSON (Person.BirthDate p)))]);
}.

#[export] Instance Animal_Marshal : Marshal Animal := {
  json_Marshal p :=
    Ok (JObject [("name", JString (Animal.Name p));
                 ("id", JString (Animal.ID p));
                 ("type", JString (Animal.Type_ p));
                 ("owner_id", JString (Animal.OwnerID p))]);
}.

(** An [Object] as the store hands it back: a pointer to one of the two
    structs. *)
Inductive ObjectPtr : Type :=
| AnimalPtr (a : Animal)
| PersonPtr (p : Person Time).

#[export] Instance ObjectPtr_Object : Object ObjectPtr := {
  GetKind o := match o with AnimalPtr a => GetKind a | PersonPtr p => GetKind p end;
  GetID o := match o with AnimalPtr a => GetID a | PersonPtr p => GetID p end;
  GetName o := match o with AnimalPtr a => GetName a | PersonPtr p => GetName p end;
  SetID o s :=
    match o with
    | AnimalPtr a => AnimalPtr (SetID a s)
    | PersonPtr p => PersonPtr (SetID p s)
    end;
  SetName o s :=
    match o with
    | AnimalPtr a => let '(a', err) := SetName a s in (AnimalPtr a', err)
    | PersonPtr p => let '(p', err) := SetName p s in (PersonPtr p', err)
    end;
}.

#[export] Instance ObjectPtr_Marshal : Marshal ObjectPtr := {
  json_Marshal o :=
    match o with
    | AnimalPtr a => json_Marshal a
    | PersonPtr p => json_Marshal p
    end;
}.

(** Decoding one member into the field whose tag it names; a member that
    names no field is skipped. *)
Definition Animal_member (a : Animal) (m : string * JValue) : result Animal :=
  let tag := fold_name m.1 in
  if String.eqb tag "name" then
    match store_string (Animal.Name a) m.2 with
    | Ok s => Ok (Animal.mk s (Animal.ID a) (Animal.Type_ a) (Animal.OwnerID a))
    | Err e => Err e
    end
  else if String.eqb tag "id" then
    match store_string (Animal.ID a) m.2 with
    | Ok s => Ok (Animal.mk (Animal.Name a) s (Animal.Type_ a) (Animal.OwnerID a))
    | Err e => Err e
    end
  else if String.eqb tag "type" then
    match store_string (Animal.Type_ a) m.2 with
    | Ok s => Ok (Animal.mk (Animal.Name a) (Animal.ID a) s (Animal.OwnerID a))
    | Err e => Err e
    end
  else if String.eqb tag "owner_id" then
    match store_string (Animal.OwnerID a) m.2 with
    | Ok s => Ok (Animal.mk (Animal.Name a) (Animal.ID a) (Animal.Type_ a) s)
    | Err e => Err e
    end
  else Ok a.

Definition Person_member (p : Person Time) (m : string * JValue)
    : result (Person Time) :=
  let tag := fold_name m.1 in
  if String.eqb tag "name" then
    match store_string (Person.Name p) m.2 with
    | Ok s => Ok (Person.mk s (Person.ID p) (Person.LastName p)
                    (Person.Birthday p) (Person.BirthDate p))
    | Err e => Err e
    end
  else if String.eqb tag "id" then
    match store_string (Person.ID p) m.2 with
    | Ok s => Ok (Person.mk (Person.Name p) s (Person.LastName p)
                    (Person.Birthday p) (Person.BirthDate p))
    | Err e => Err e
    end
  else if String.eqb tag "last_name" then
    match store_string (Person.LastName p) m.2 with
    | Ok s => Ok (Person.mk (Person.Name p) (Person.ID p) s
                    (Person.Birthday p) (Person.BirthDate p))
    | Err e => Err e
    end
  else if String.eqb tag "birthday" then
    match store_string (Person.Birthday p) m.2 with
    | Ok s => Ok (Person.mk (Person.Name p) (Person.ID p) (Person.LastName p)
                    s (Person.BirthDate p))
    | Err e => Err e
    end
  else if String.eqb tag "birthdate" then
    match store_time (Person.BirthDate p) m.2 with
    | Ok t => Ok (Person.mk (Person.Name p) (Person.ID p) (Person.LastName p)
                    (Person.Birthday p) t)
    | Err e => Err e
    end
  else Ok p.

Fixpoint decode_members {A : Type} (member : A -> string * JValue -> result A)
    (a : A) (members : list (string * JValue)) : result A :=
  match members with
  | [] => Ok a
  | m :: members' =>
      match member a m with
      | Ok a' => decode_members member a' members'
      | Err e => Err e
      end
  end.

(** [json.Unmarshal(value, &a)] for a pointer to a struct: a text that is not
    JSON is refused, null leaves the struct as it is, and only an object can
    be stored into a struct. *)
Definition json_Unmarshal {A : Type} (member : A -> string * JValue -> result A)
    (value : Document) (a : A) : result A :=
  match value with
  | Invalid => Err json_error
  | Literal JNull => Ok a
  | Literal _ => Err json_error
  | JObject members => decode_members member a members
  end.

(** [&Animal{}] and [&Person{}]. *)
Definition Animal_zero : Animal := Animal.mk "" "" "" "".
Definition Person_zero : Person Time := Person.mk "" "" "" "" Time_zero.

Definition extractObject (key : string) (value : Document) : result ObjectPtr :=
  let kind := getKind key in
  if String.eqb kind (GetKind Animal_zero) then
    match json_Unmarshal Animal_member value Animal_zero with
    | Ok a => Ok (AnimalPtr a)
    | Err err => Err err
    end
  else if String.eqb kind (GetKind Person_zero) then
    match json_Unmarshal Person_member value Person_zero with
    | Ok p => Ok (PersonPtr p)
    | Err err => Err err
    end
  else Err (errors_New "unknown object type").

(** ** The calls on the client

    Modelled from the spec: the backend offers [set], [get], [keys] and
    [delete] on one map.  The connection does not fail; the only error is the
    one [Get] gives for an absent key. *)
(** [keys[0]].  db.go reads it only after it has found [keys] not empty. *)
Definition first_key (keys : list string) : string := default "" (keys !! 0).

Definition matching_keys (db : RedisDB) (pattern : string) : list string :=
  filter (λ key, glob pattern key = true) (map_to_list db).*1.

Definition client_Keys (db : RedisDB) (pattern : string)
    : result (list string) :=
  Ok (matching_keys db pattern).

Definition client_Get (db : RedisDB) (key : string) : result Document :=
  match db !! key with
  | Some value => Ok value
  | None => Err redis_Nil
  end.

Definition client_Set (db : RedisDB) (key : string) (value : Document)
    : RedisDB * option error :=
  (<[key := value]> db, None).

Definition client_Del (db : RedisDB) (key : string) : RedisDB * result nat :=
  (delete key db, Ok (match db !! key with Some _ => 1 | None => 0 end)).

(** ** db.go: what both copies have in the same words *)

Definition GetObjectByID (db : RedisDB) (id : string) : result ObjectPtr :=
  let pattern := id_pattern id in
  match client_Keys db pattern with
  | Err err => Err err
  | Ok keys =>
      if (length keys =? 0)%nat then Err (errors_New "object not found")
      else if (1 <? length keys)%nat
      then Err (errors_New "multiple objects with the same ID")
      else
        match client_Get db (first_key keys) with
        | Err err => Err err
        | Ok value => extractObject (first_key keys) value
        end
  end.

Definition DeleteObject (db : RedisDB) (id : string) : RedisDB * option error :=
  let pattern := id_pattern id in
  match client_Keys db pattern with
  | Err err => (db, Some err)
  | Ok keys =>
      if (length keys =? 0)%nat then (db, None)
      else if (1 <? length keys)%nat
      then (db, Some (errors_New "multiple objects with the same ID"))
      else
        let key := first_key keys in
        match client_Del db key with
        | (db', Err err) => (db', Some err)
        | (db', Ok _) => (db', None)
        end
  end.

End Store.

(** ** src/db.go *)
Module DbGo.
Section Db.
Context {Time : Type} `{TimeJSON Time}.

(** The loop of [listObjects].  Every value is decoded under [keys[0]], which
    the loop is handed as [key0]. *)
Fixpoint listObjects_loop (db : RedisDB) (key0 : string) (keys : list string)
    (objects : list (@ObjectPtr Time)) : list (@ObjectPtr Time) * option error :=
  match keys with
  | [] => (objects, None)
  | key :: keys' =>
      match client_Get db key with
      | Err err => ([], Some err)
      | Ok value =>
          match extractObject key0 value with
          | Err err => ([], Some err)
          | Ok object => listObjects_loop db key0 keys' (objects ++ [object])
          end
      end
  end.

Definition listObjects (db : RedisDB) (pattern : string)
    : list (@ObjectPtr Time) * option error :=
  let objects := [] in
  match client_Keys db pattern with
  | Err err => ([], Some err)
  | Ok keys =>
      if (length keys =? 0)%nat then (objects, None)
      else listObjects_loop db (first_key keys) keys objects
  end.

(** [id] is the text of [uuid.New()].  The result is the backend and the
    caller's record after the call, and the error. *)
Definition Store {T : Type} `{Object T} `{Marshal T}
    (db : RedisDB) (id : string) (object : T) : RedisDB * T * option error :=
  match json_Marshal object with
  | Err err => (db, object, Some err)
  | Ok value =>
      let object := SetID object id in
      let key := id +:+ "::" +:+ GetName object +:+ "::" +:+ GetKind object in
      if negb (strings_Count key "::" =? 2)%nat
      then (db, object,
            Some (errors_New "unexpected restricted delimiter in the key"))
      else
        match client_Set db key value with
        | (db', Some err) => (db', object, Some err)
        | (db', None) => (db', object, None)
        end
  end.

Definition GetObjectsByName (db : RedisDB) (name : string)
    : list (@ObjectPtr Time) * option error :=
  if String.eqb name ""
  then ([], Some (errors_New "invalid request. empty name"))
  else listObjects db (name_pattern name).

Definition ListObjects (db : RedisDB) (kind : string)
    : list (@ObjectPtr Time) * option error :=
  if String.eqb kind ""
  then ([], Some (errors_New "invalid request. empty kind"))
  else listObjects db (kind_pattern kind).

End Db.
End DbGo.

(** ** src/unnamed/part_000 *)
Module Part000.
Section Db.
Context {Time : Type} `{TimeJSON Time}.

Fixpoint listObjects_loop (db : RedisDB) (keys : list string)
    (objects : list (@ObjectPtr Time)) : list (@ObjectPtr Time) * option error :=
  match keys with
  | [] => (objects, None)
  | key :: keys' =>
      match client_Get db key with
      | Err err => ([], Some err)
      | Ok value =>
          match extractObject key value with
          | Err err => ([], Some err)
          | Ok object => listObjects_loop db keys' (objects ++ [object])
          end
      end
  end.

Definition listObjects (db : RedisDB) (pattern : string)
    : list (@ObjectPtr Time) * option error :=
  let objects := [] in
  match client_Keys db pattern with
  | Err err => ([], Some err)
  | Ok keys =>
      if (length keys =? 0)%nat then (objects, None)
      else listObjects_loop db keys objects
  end.

Definition Store {T : Type} `{Object T} `{Marshal T}
    (db : RedisDB) (id : string) (object : T) : RedisDB * T * option error :=
  if String.eqb (GetName object) ""
  then (db, object, Some (errors_New "missing object name"))
  else if String.eqb (GetKind object) ""
  then (db, object, Some (errors_New "missing object kind"))
  else
    let object := SetID object id in
    match json_Marshal object with
    | Err err => (db, object, Some err)
    | Ok value =>
        let key := id +:+ "::" +:+ GetName object +:+ "::" +:+ GetKind object in
        if negb (strings_Count key "::" =? 2)%nat
        then (db, object,
              Some (errors_New "unexpected restricted delimiter in the key"))
        else
          match client_Set db key value with
          | (db', Some err) => (db', object, Some err)
          | (db', None) => (db', object, None)
          end
    end.

Definition GetObjectsByName (db : RedisDB) (name : string)
    : list (@ObjectPtr Time) * option error :=
  if String.eqb name ""
  then ([], Some (errors_New "invalid request. empty name"))
  else listObjects db (name_pattern name).

Definition ListObjects (db : RedisDB) (kind : string)
    : list (@ObjectPtr Time) * option error :=
  if String.eqb kind ""
  then ([], Some (errors_New "invalid request. empty kind"))
  else listObjects db (kind_pattern kind).

End Db.
End Part000.

(** ** What the statements below speak of *)

(** The text of [uuid.New().String()]: 8-4-4-4-12 lower-case hexadecimal
    digits with hyphens between the groups.  [true] in the layout asks for a
    digit, [false] for a hyphen. *)
Definition is_hex (c : ascii) : bool :=
  let n := nat_of_ascii c in
  ((48 <=? n)%nat && (n <=? 57)%nat) || ((97 <=? n)%nat && (n <=? 102)%nat).

Fixpoint has_layout (layout : list bool) (s : string) : bool :=
  match layout, s with
  | [], EmptyString => true
  | digit :: layout', String c s' =>
      (if digit then is_hex c else (c =? "-")%char) && has_layout layout' s'
  | _, _ => false
  end.

Definition uuid_layout : list bool :=
  replicate 8 true ++ [false] ++ replicate 4 true ++ [false] ++
  replicate 4 true ++ [false] ++ replicate 4 true ++ [false] ++
  replicate 12 true.

Definition is_uuid (id : string) : bool := has_layout uuid_layout id.

(** Every character of [s] passes [P]. *)
Fixpoint all_chars (P : ascii -> bool) (s : string) : bool :=
  match s with
  | EmptyString => true
  | String c s' => P c && all_chars P s'
  end.

Definition no_newline (s : string) : bool := all_chars dot s.
Definition no_colon (s : string) : bool := all_chars (λ c, negb (c =? ":")%char) s.
Definition no_star (s : string) : bool := all_chars (λ c, negb (c =? "*")%char) s.

(** The key [Store] builds. *)
Definition store_key {T : Type} `{Object T} (id : string) (object : T) : string :=
  id +:+ "::" +:+ GetName object +:+ "::" +:+ GetKind object.

(** The error texts of db.go. *)
Definition ErrDelimiter : error :=
  errors_New "unexpected restricted delimiter in the key".
Definition ErrNotFound : error := errors_New "object not found".
Definition ErrAmbiguousID : error :=
  errors_New "multiple objects with the same ID".
Definition ErrUnknownKind : error := errors_New "unknown object type".

(** The kind-extraction rule in the words of the spec: everything after the
    final occurrence of the delimiter, when there is one. *)
Fixpoint after_last_delimiter (key : string) : option string :=
  match key with
  | EmptyString => None
  | String c key' =>
      match after_last_delimiter key' with
      | Some rest => Some rest
      | None =>
          match c, key' with
          | ":"%char, String ":"%char rest => Some rest
          | _, _ => None
          end
      end
  end.

(** The loop of [listObjects] with the decoding left open: [Part000] decodes
    a value under its own key, [DbGo] under the first key of the scan. *)
Fixpoint scan {A : Type} (decode : string -> Document -> result A)
    (db : RedisDB) (keys : list string) (objects : list A)
    : list A * option error :=
  match keys with
  | [] => (objects, None)
  | key :: keys' =>
      match client_Get db key with
      | Err err => ([], Some err)
      | Ok value =>
          match decode key value with
          | Err err => ([], Some err)
          | Ok object => scan decode db keys' (objects ++ [object])
          end
      end
  end.

(** The record under [key] decodes to [r]. *)
Definition decodes {A : Type} (decode : string -> Document -> result A)
    (db : RedisDB) (key : string) (r : result A) : Prop :=
  ∃ value, db !! key = Some value ∧ decode key value = r.


Section Stable.
Context {Time : Type} `{TimeJSON Time}.

(** A time that its own JSON text gives back. *)
Definition time_stable (t : Time) : Prop :=
  Time_UnmarshalJSON (Time_MarshalJSON t) = Some t.

Definition json_stable (o : @ObjectPtr Time) : Prop :=
  match o with
  | AnimalPtr _ => True
  | PersonPtr p => time_stable (Person.BirthDate p)
  end.

(** Every record of the backend decodes under its own key. *)
Definition readable (db : RedisDB) : Prop :=
  ∀ key value, db !! key = Some value →
    ∃ o : @ObjectPtr Time, extractObject key value = Ok o.

End Stable.

(** ** An instance for running the store

    A time is kept as its RFC 3339 text. *)
Module TextTime.
#[export] Instance TextTime_JSON : TimeJSON string := {
  Time_zero := "0001-01-01T00:00:00Z";
  Time_MarshalJSON t := t;
  Time_UnmarshalJSON s := Some s;
}.
End TextTime.

(** ** db_test.go: the records of the tests *)
Definition getPerson (name : string) : Person string :=
  Person.mk name "" "Johnson" "01-02-1990" "1989-02-01T00:00:00Z".

Definition getAnimal (name : string) : Animal :=
  Animal.mk name "" "Cat" "Johnson".

Definition newline : string := String "010"%char EmptyString.

(** Two texts such as [uuid.New().String()] gives. *)
Definition uuid1 : string := "123e4567-e89b-42d3-a456-426614174000".
Definition uuid2 : string := "9b2d7c1e-5f3a-4c8b-9e6d-0a1b2c3d4e5f".

(** Records to run the store on: the animal and the person of the tests
    under one name, a record without a name, one whose name holds the
    delimiter (TestStore), one with a single colon, and one whose name runs
    over two lines. *)
Definition fluffy : @ObjectPtr string := AnimalPtr (getAnimal "fluffy").
Definition fluffy_person : @ObjectPtr string := PersonPtr (getPerson "fluffy").
Definition nameless : @ObjectPtr string := AnimalPtr (getAnimal "").
Definition two_lines : @ObjectPtr string :=
  AnimalPtr (getAnimal ("flu" +:+ newline +:+ "ffy")).

(** Backends to run it on: [fluffy] stored by [Part000], the same with a
    second key of the same id, and the same with a payload that is not
    JSON under the same name. *)
Section Backends.
Local Existing Instance TextTime.TextTime_JSON.

Definition one_record : RedisDB := (Part000.Store ∅ uuid1 fluffy).1.1.
Definition same_id_twice : RedisDB :=
  <[uuid1 +:+ "::kitty::*main.Animal" := Invalid]> one_record.

End Backends.

(** ** Invariants of the backend *)

(** Every key begins with a generated id and the delimiter. *)
Definition keyed_by_uuid (db : RedisDB) : Prop :=
  ∀ key, is_Some (db !! key) →
    ∃ id rest, key = id +:+ "::" +:+ rest ∧ is_uuid id = true.

(** ** src/object.go: main

    The demo of src/object.go, which runs on the store of src/db.go.  The
    three ids are the texts [uuid.New] gives to the three calls of [Store];
    the backend is empty after [FlushAll].  What the run prints on the way is
    left out; its end is kept: a call of [log.Fatalf] with an error, an index
    out of range, or the return after the two totals are printed. *)
Inductive exit : Type :=
| Fatalf (err : error)
| IndexOutOfRange
| Return (persons animals : nat).

Section Main.
Context {Time : Type} `{TimeJSON Time}.

(** The backend holds only what [DbGo.Store] wrote for records that came
    without an id. *)
Definition written_without_id (db : RedisDB) : Prop :=
  ∀ key value, db !! key = Some value →
    ∃ id (o : @ObjectPtr Time),
      key = store_key id o ∧ is_uuid id = true ∧
      no_newline (GetName o) = true ∧ json_Marshal o = Ok value ∧
      GetID o = "" ∧ json_stable o.

(** The loop over the listed persons: delete each by the id it carries. *)
Fixpoint main_delete_loop (db : RedisDB) (persons : list (@ObjectPtr Time))
    : RedisDB * option error :=
  match persons with
  | [] => (db, None)
  | alice :: persons' =>
      match DeleteObject db (GetID alice) with
      | (db', Some err) => (db', Some err)
      | (db', None) => main_delete_loop db' persons'
      end
  end.

Definition main (id1 id2 id3 : string) : exit :=
  let animal := AnimalPtr (Animal.mk "tiger" "" "wild-animal" "alice") in
  let person1 := PersonPtr (Person.mk "alice" "" "jordon" "" Time_zero) in
  let person2 := PersonPtr (Person.mk "alice" "" "macy" "" Time_zero) in
  let db : RedisDB := ∅ in
  match DbGo.Store db id1 animal with
  | (_, _, Some err) => Fatalf err
  | (db, _, None) =>
  match DbGo.Store db id2 person1 with
  | (_, _, Some err) => Fatalf err
  | (db, _, None) =>
  match DbGo.Store db id3 person2 with
  | (_, _, Some err) => Fatalf err
  | (db, _, None) =>
  match DbGo.GetObjectsByName db "tiger" with
  | (_, Some err) => Fatalf err
  | (tiger, None) =>
  match DbGo.GetObjectsByName db "alice" with
  | (_, Some err) => Fatalf err
  | (persons, None) =>
  match persons, tiger with
  | persons_0 :: _, tiger_0 :: _ =>
      let pKind := GetKind persons_0 in
      let aKind := GetKind tiger_0 in
      match DbGo.ListObjects db pKind with
      | (_, Some err) => Fatalf err
      | (persons, None) =>
      match main_delete_loop db persons with
      | (_, Some err) => Fatalf err
      | (db, None) =>
      match GetObjectByID db (GetID tiger_0) with
      | Err err => Fatalf err
      | Ok tig =>
      match DeleteObject db (GetID tig) with
      | (_, Some err) => Fatalf err
      | (db, None) =>
      match DbGo.ListObjects db pKind with
      | (_, Some err) => Fatalf err
      | (persons, None) =>
      match DbGo.ListObjects (Time:=Time) db aKind with
      | (_, Some err) => Fatalf err
      | (animals, None) => Return (length persons) (length animals)
      end end end end end end
  | _, _ => IndexOutOfRange
  end end end end end end.

End Main.

(** A third generated id, and an animal whose name begins with a colon. *)
Definition uuid3 : string := "00000000-0000-4000-8000-000000000000".

(** * package strings *)
Section Strings.

Lemma Count_delimiter (r : string) :
  strings_Count ("::" +:+ r) "::" = S (strings_Count r "::").
Proof. reflexivity. Qed.

Lemma Count_other (c : ascii) (r : string) :
  c ≠ ":"%char → strings_Count (String c r) "::" = strings_Count r "::".
Proof.
  intros Hc%Ascii.eqb_neq. unfold strings_Count. simpl. by rewrite Hc.
Qed.

Lemma Count_lone_colon (r : string) :
  strings_HasPrefix r ":" = false →
  strings_Count (String ":" r) "::" = strings_Count r "::".
Proof.
  intros Hr. unfold strings_Count. simpl. destruct r as [|c' r']; [done|].
  simpl in Hr. rewrite andb_true_r in Hr. by rewrite Hr.
Qed.




(** A prefix without a colon holds no occurrence and takes part in none. *)
Lemma Count_skip (x y : string) :
  no_colon x = true →
  strings_Count (x +:+ y) "::" = strings_Count y "::".
Proof.
  induction x as [|c x IH]; [done|].
  unfold no_colon. cbn [all_chars]. intros [Hc Hx]%andb_true_iff.
  change (String c x +:+ y) with (String c (x +:+ y)).
  rewrite Count_other; [by apply IH|].
  apply negb_true_iff, Ascii.eqb_neq in Hc. done.
Qed.

End Strings.

(** * The expression of getKind *)
Section Regexp.

Lemma dots_to_end_no_newline (s : string) : dots_to_end s = no_newline s.
Proof. induction s as [|c s IH]; [done|]. unfold no_newline in *. simpl. by rewrite IH. Qed.

(** Without a newline in the text the dot accepts everything, and the greedy
    search ends on the final occurrence of the delimiter. *)
Lemma match_kind_after_last (s : string) :
  no_newline s = true → match_kind s = after_last_delimiter s.
Proof.
  induction s as [|c s IH]; [done|].
  unfold no_newline. cbn [all_chars]. intros [Hc Hs]%andb_true_iff.
  cbn [match_kind after_last_delimiter]. rewrite Hc, (IH Hs).
  destruct (after_last_delimiter s) as [rest|]; [done|].
  destruct (decide (c = ":"%char)) as [->|Hc'].
  - destruct s as [|c' s]; [done|].
    destruct (decide (c' = ":"%char)) as [->|Hc''].
    + rewrite dots_to_end_no_newline. unfold no_newline in *. cbn [all_chars] in Hs.
      apply andb_true_iff in Hs as [_ ->]. done.
    + destruct c' as [[] [] [] [] [] [] [] []]; try done.
  - destruct c as [[] [] [] [] [] [] [] []]; try done.
Qed.

(** With a newline anywhere in the text the expression does not match. *)
Lemma match_kind_newline (s : string) :
  no_newline s = false → match_kind s = None.
Proof.
  induction s as [|c s IH]; [done|].
  unfold no_newline. cbn [all_chars match_kind]. intros Hs.
  destruct (dot c) eqn:Hc.
  - rewrite IH by done. simpl in Hs.
    destruct (decide (c = ":"%char)) as [->|Hc'].
    + destruct s as [|c' s]; [done|].
      destruct (decide (c' = ":"%char)) as [->|Hc''].
      * rewrite dots_to_end_no_newline. unfold no_newline in *. cbn [all_chars] in Hs.
        simpl in Hs. by rewrite Hs.
      * destruct c' as [[] [] [] [] [] [] [] []]; try done.
    + destruct c as [[] [] [] [] [] [] [] []]; try done.
  - destruct c as [[] [] [] [] [] [] [] []]; try done.
Qed.

Lemma getKind_after_last (key : string) :
  no_newline key = true →
  getKind key = default "" (after_last_delimiter key).
Proof.
  intros Hkey. unfold getKind, FindStringSubmatch.
  rewrite match_kind_after_last by done.
  by destruct (after_last_delimiter key).
Qed.

Lemma getKind_newline (key : string) :
  no_newline key = false → getKind key = "".
Proof.
  intros Hkey. unfold getKind, FindStringSubmatch.
  by rewrite match_kind_newline.
Qed.

(** [after_last_delimiter] is what its name says: the text after an
    occurrence of the delimiter that no other occurrence follows. *)
Lemma after_last_delimiter_None (s : string) :
  after_last_delimiter s = None ↔ strings_Contains s "::" = false.
Proof.
  induction s as [|c s IH]; [done|].
  cbn [after_last_delimiter strings_Contains strings_HasPrefix].
  destruct (after_last_delimiter s) as [rest|].
  - split; [done|]. intros [_ Hs]%orb_false_iff. by apply IH in Hs.
  - replace (strings_Contains s "::") with false by (symmetry; by apply IH).
    rewrite orb_false_r.
    destruct (decide (c = ":"%char)) as [->|Hc].
    + destruct s as [|c' s]; [done|].
      destruct (decide (c' = ":"%char)) as [->|Hc']; [done|].
      apply Ascii.eqb_neq in Hc' as Hc''. simpl. rewrite Hc''.
      destruct c' as [[] [] [] [] [] [] [] []]; try done.
    + apply Ascii.eqb_neq in Hc as Hc''. rewrite Hc''.
      destruct c as [[] [] [] [] [] [] [] []]; try done.
Qed.

Lemma after_last_delimiter_final (pre suf : string) :
  strings_Contains (":" +:+ suf) "::" = false →
  after_last_delimiter (pre +:+ "::" +:+ suf) = Some suf.
Proof.
  intros Hsuf.
  assert (after_last_delimiter (String ":" suf) = None) as Hnone
    by by apply after_last_delimiter_None.
  assert (after_last_delimiter ("::" +:+ suf) = Some suf) as Hsome.
  { change ("::" +:+ suf) with (String ":" (String ":" suf)).
    cbn [after_last_delimiter] in *. by rewrite Hnone. }
  induction pre as [|c pre IH]; [done|].
  change (String c pre +:+ "::" +:+ suf) with (String c (pre +:+ "::" +:+ suf)).
  cbn [after_last_delimiter]. by rewrite IH.
Qed.

Lemma after_last_delimiter_Some (s rest : string) :
  after_last_delimiter s = Some rest →
  ∃ pre, s = pre +:+ "::" +:+ rest ∧
         strings_Contains (":" +:+ rest) "::" = false.
Proof.
  revert rest. induction s as [|c s IH]; [done|]. intros rest.
  cbn [after_last_delimiter].
  destruct (after_last_delimiter s) as [rest'|] eqn:Hs.
  - intros [= ->]. destruct (IH rest eq_refl) as (pre & -> & Hrest).
    by exists (String c pre).
  - destruct (decide (c = ":"%char)) as [->|Hc].
    + destruct s as [|c' s]; [done|].
      destruct (decide (c' = ":"%char)) as [->|Hc'].
      * intros [= ->]. exists "". split; [done|].
        apply after_last_delimiter_None. done.
      * destruct c' as [[] [] [] [] [] [] [] []]; try done.
    + destruct c as [[] [] [] [] [] [] [] []]; try done.
Qed.

End Regexp.

(** * Patterns *)
Section Glob.

Lemma glob_star_unfold (pattern s : string) :
  glob (String "*" pattern) s =
  glob pattern s ||
  match s with
  | EmptyString => false
  | String _ s' => glob (String "*" pattern) s'
  end.
Proof. by destruct s. Qed.

Lemma glob_star_all (s : string) : glob "*" s = true.
Proof.
  induction s as [|c s IH]; [done|].
  rewrite glob_star_unfold, IH. apply orb_true_r.
Qed.

(** The star may swallow any prefix. *)
Lemma glob_star_skip (pattern s1 s2 : string) :
  glob pattern s2 = true → glob (String "*" pattern) (s1 +:+ s2) = true.
Proof.
  intros Hs2. induction s1 as [|c s1 IH].
  - change ("" +:+ s2) with s2. rewrite glob_star_unfold, Hs2. done.
  - change (String c s1 +:+ s2) with (String c (s1 +:+ s2)).
    rewrite glob_star_unfold, IH. apply orb_true_r.
Qed.


(** A literal prefix of the pattern must be the prefix of the text. *)
Lemma glob_literal (lit pattern s : string) :
  no_star lit = true →
  glob (lit +:+ pattern) (lit +:+ s) = glob pattern s.
Proof.
  induction lit as [|c lit IH]; [done|].
  unfold no_star. cbn [all_chars]. intros [Hc Hlit]%andb_true_iff.
  change (String c lit +:+ pattern) with (String c (lit +:+ pattern)).
  change (String c lit +:+ s) with (String c (lit +:+ s)).
  cbn [glob]. apply negb_true_iff in Hc. rewrite Hc.
  rewrite Ascii.eqb_refl. by apply IH.
Qed.

Lemma glob_literal_inv (lit pattern s : string) :
  no_star lit = true →
  glob (lit +:+ pattern) s = true →
  ∃ s', s = lit +:+ s' ∧ glob pattern s' = true.
Proof.
  revert s. induction lit as [|c lit IH]; intros s.
  - intros _ Hp. by exists s.
  - unfold no_star. cbn [all_chars]. intros [Hc Hlit]%andb_true_iff.
    change (String c lit +:+ pattern) with (String c (lit +:+ pattern)).
    cbn [glob]. apply negb_true_iff in Hc. rewrite Hc.
    destruct s as [|c' s]; [done|].
    intros [Hcc Hp]%andb_true_iff. apply Ascii.eqb_eq in Hcc as <-.
    destruct (IH s Hlit Hp) as (s' & -> & Hs'). by exists s'.
Qed.

Lemma glob_refl (s : string) : no_star s = true → glob s s = true.
Proof.
  induction s as [|c s IH]; [done|].
  unfold no_star. cbn [all_chars glob]. intros [Hc Hs]%andb_true_iff.
  apply negb_true_iff in Hc. rewrite Hc, Ascii.eqb_refl. by apply IH.
Qed.

(** The three patterns of db.go against a key of the form [Store] builds. *)
Lemma glob_id_pattern (id name kind : string) :
  no_star id = true →
  glob (id_pattern id) (id +:+ "::" +:+ name +:+ "::" +:+ kind) = true.
Proof.
  intros Hid. unfold id_pattern. rewrite glob_literal by done.
  rewrite (glob_literal "::" "*::*") by done.
  apply (glob_star_skip "::*"). rewrite (glob_literal "::" "*") by done.
  apply glob_star_all.
Qed.

Lemma glob_name_pattern (id name kind : string) :
  no_star name = true →
  glob (name_pattern name) (id +:+ "::" +:+ name +:+ "::" +:+ kind) = true.
Proof.
  intros Hname. unfold name_pattern.
  change ("*::" +:+ name +:+ "::*") with (String "*" ("::" +:+ name +:+ "::*")).
  apply glob_star_skip.
  rewrite (glob_literal "::") by done. rewrite glob_literal by done.
  apply (glob_star_all kind).
Qed.

Lemma glob_kind_pattern (id name kind : string) :
  no_star kind = true →
  glob (kind_pattern kind) (id +:+ "::" +:+ name +:+ "::" +:+ kind) = true.
Proof.
  intros Hkind. unfold kind_pattern.
  change ("*::*::" +:+ kind) with (String "*" ("::" +:+ String "*" ("::" +:+ kind))).
  apply glob_star_skip. rewrite (glob_literal "::") by done.
  apply glob_star_skip. rewrite (glob_literal "::") by done.
  by apply glob_refl.
Qed.

End Glob.

(** * Identifiers *)
Section UUID.

Lemma has_layout_all_chars (P : ascii → bool) (layout : list bool) (s : string) :
  (∀ c, is_hex c = true → P c = true) → P "-"%char = true →
  has_layout layout s = true → all_chars P s = true.
Proof.
  intros Hhex Hhyphen. revert s.
  induction layout as [|digit layout IH]; intros [|c s]; try done.
  cbn [has_layout all_chars]. intros [Hc Hs]%andb_true_iff.
  rewrite (IH s Hs), andb_true_r.
  destruct digit; [by apply Hhex|]. by apply Ascii.eqb_eq in Hc as ->.
Qed.

Lemma is_uuid_no_colon (id : string) : is_uuid id = true → no_colon id = true.
Proof.
  apply has_layout_all_chars; [|done].
  intros c Hc. apply negb_true_iff, Ascii.eqb_neq. by intros ->.
Qed.

Lemma is_uuid_no_star (id : string) : is_uuid id = true → no_star id = true.
Proof.
  apply has_layout_all_chars; [|done].
  intros c Hc. apply negb_true_iff, Ascii.eqb_neq. by intros ->.
Qed.

Lemma is_uuid_no_newline (id : string) : is_uuid id = true → no_newline id = true.
Proof.
  apply has_layout_all_chars; [|done].
  intros c Hc. apply negb_true_iff, Ascii.eqb_neq. by intros ->.
Qed.

End UUID.

(** * The backend *)
Section Backend.
Implicit Types (db : gmap string Document) (key pattern : string).

Lemma elem_of_matching_keys db pattern key :
  key ∈ matching_keys db pattern ↔
  glob pattern key = true ∧ is_Some (db !! key).
Proof.
  unfold matching_keys. rewrite list_elem_of_filter, list_elem_of_fmap.
  split.
  - intros (Hglob & [k v] & -> & Hkv%elem_of_map_to_list). eauto.
  - intros (Hglob & v & Hv). split; [done|].
    exists (key, v). split; [done|]. by apply elem_of_map_to_list.
Qed.

Lemma NoDup_matching_keys db pattern : NoDup (matching_keys db pattern).
Proof. apply NoDup_filter, NoDup_fst_map_to_list. Qed.

Lemma matching_keys_insert db pattern key value :
  db !! key = None →
  matching_keys (<[key := value]> db) pattern ≡ₚ
  (if glob pattern key then [key] else []) ++ matching_keys db pattern.
Proof.
  intros Hkey. unfold matching_keys.
  rewrite (map_to_list_insert db key value Hkey). cbn [fmap list_fmap fst].
  rewrite filter_cons. cbn [fst]. destruct (glob pattern key); by case_decide.
Qed.

Lemma matching_keys_delete db pattern key value :
  db !! key = Some value →
  matching_keys db pattern ≡ₚ
  (if glob pattern key then [key] else []) ++ matching_keys (delete key db) pattern.
Proof.
  intros Hkey. unfold matching_keys.
  rewrite <-(map_to_list_delete db key value Hkey). cbn [fmap list_fmap fst].
  rewrite filter_cons. cbn [fst]. destruct (glob pattern key); by case_decide.
Qed.

(** A key that is alone in matching stays alone in no order but its own. *)
Lemma matching_keys_fresh db pattern key value :
  matching_keys db pattern = [] → glob pattern key = true →
  matching_keys (<[key := value]> db) pattern = [key].
Proof.
  intros Hfresh Hglob. apply Permutation_singleton_r.
  rewrite matching_keys_insert, Hglob, Hfresh; [done|].
  destruct (db !! key) as [v|] eqn:Hv; [|done].
  assert (key ∈ matching_keys db pattern) as Hin
    by (apply elem_of_matching_keys; eauto).
  rewrite Hfresh in Hin. by apply elem_of_nil in Hin.
Qed.

Lemma matching_keys_deleted db pattern key :
  matching_keys db pattern = [key] →
  matching_keys (delete key db) pattern = [].
Proof.
  intros Hkeys.
  assert (key ∈ matching_keys db pattern) as [Hglob [v Hv]]%elem_of_matching_keys
    by (rewrite Hkeys; apply list_elem_of_here).
  pose proof (matching_keys_delete db pattern key v Hv) as Hperm.
  rewrite Hkeys, Hglob in Hperm. cbn [app] in Hperm.
  apply Permutation_cons_inv, Permutation_nil in Hperm. done.
Qed.

Lemma client_Get_matching db pattern key :
  key ∈ matching_keys db pattern → ∃ value, db !! key = Some value ∧ client_Get db key = Ok value.
Proof.
  intros [_ [v Hv]]%elem_of_matching_keys. exists v. unfold client_Get. by rewrite Hv.
Qed.

End Backend.

(** * Records and payloads *)
Section Records.
Context {Time : Type} `{TimeJSON Time}.
Implicit Types (db : gmap string Document) (o : @ObjectPtr Time).

Lemma GetName_SetID o id : GetName (SetID o id) = GetName o.
Proof. by destruct o. Qed.

Lemma GetKind_SetID o id : GetKind (SetID o id) = GetKind o.
Proof. by destruct o. Qed.


Lemma store_key_SetID o id id' : store_key id (SetID o id') = store_key id o.
Proof. unfold store_key. by rewrite GetName_SetID, GetKind_SetID. Qed.

Lemma GetKind_cases o : GetKind o = "*main.Animal" ∨ GetKind o = "*main.Person".
Proof. destruct o; auto. Qed.

Lemma json_Marshal_total o : ∃ value, json_Marshal o = Ok value.
Proof. destruct o; eauto. Qed.

Lemma Unmarshal_Marshal_Animal (a : Animal) value :
  json_Marshal a = Ok value →
  json_Unmarshal Animal_member value Animal_zero = Ok a.
Proof. intros [= <-]. by destruct a. Qed.

Lemma Unmarshal_Marshal_Person (p : Person Time) value :
  time_stable (Person.BirthDate p) →
  json_Marshal p = Ok value →
  json_Unmarshal Person_member value Person_zero = Ok p.
Proof.
  unfold time_stable. intros Ht [= <-]. destruct p as [n i l b t].
  cbv -[Time_UnmarshalJSON Time_MarshalJSON] in *. by rewrite Ht.
Qed.

(** What [extractObject] returns has the kind read off the key. *)
Lemma extractObject_kind key value o :
  extractObject key value = Ok o → GetKind o = getKind key.
Proof.
  unfold extractObject.
  destruct (String.eqb_spec (getKind key) (GetKind Animal_zero)) as [->|_].
  { destruct (json_Unmarshal _ _ _); by intros [= <-]. }
  destruct (String.eqb_spec (getKind key) (GetKind Person_zero)) as [->|_].
  { destruct (json_Unmarshal _ _ _); by intros [= <-]. }
  done.
Qed.

Lemma extractObject_unknown key value :
  getKind key ≠ "*main.Animal" → getKind key ≠ "*main.Person" →
  extractObject key value = Err ErrUnknownKind.
Proof.
  intros Ha Hp. unfold extractObject.
  destruct (String.eqb_spec (getKind key) (GetKind Animal_zero)); [done|].
  destruct (String.eqb_spec (getKind key) (GetKind Person_zero)); done.
Qed.

Lemma all_chars_app (P : ascii → bool) (x y : string) :
  all_chars P (x +:+ y) = all_chars P x && all_chars P y.
Proof.
  induction x as [|c x IH]; [done|].
  change (String c x +:+ y) with (String c (x +:+ y)).
  cbn [all_chars]. by rewrite IH, andb_assoc.
Qed.

(** The kind read off a key that [Store] built, when no newline is in it. *)
Lemma getKind_store_key o id :
  no_newline id = true → no_newline (GetName o) = true →
  getKind (store_key id o) = GetKind o.
Proof.
  intros Hid Hname. rewrite getKind_after_last.
  - unfold store_key.
    replace (id +:+ "::" +:+ GetName o +:+ "::" +:+ GetKind o)
      with ((id +:+ "::" +:+ GetName o) +:+ "::" +:+ GetKind o).
    + rewrite after_last_delimiter_final; [done|]. by destruct o.
    + clear. induction id as [|c id IH]; [done|].
      change (String c id +:+ ?x) with (String c (id +:+ x)). by rewrite <-IH.
  - unfold store_key, no_newline in *. rewrite !all_chars_app, Hid, Hname.
    by destruct o.
Qed.

Lemma extractObject_store_key o id value :
  no_newline id = true → no_newline (GetName o) = true → json_stable o →
  json_Marshal o = Ok value →
  extractObject (store_key id o) value = Ok o.
Proof.
  intros Hid Hname Hstable Hvalue. unfold extractObject.
  rewrite getKind_store_key by done. destruct o as [a|p]; cbn in *.
  - by rewrite (Unmarshal_Marshal_Animal a value).
  - by rewrite (Unmarshal_Marshal_Person p value).
Qed.

End Records.

(** * The scan of listObjects *)
Section Scan.
Context {A : Type} (decode : string → Document → result A).
Implicit Types (db : gmap string Document) (keys : list string).


(** When every record decodes the scan gives them all, in the order of the
    keys. *)
Lemma scan_ok db keys objects objs :
  scan decode db keys objects = (objs, None) →
  ∃ objs', objs = objects ++ objs' ∧
           Forall2 (λ key o, decodes decode db key (Ok o)) keys objs'.
Proof.
  revert objects. induction keys as [|key keys IH]; intros objects.
  - intros [= <-]. exists []. by rewrite app_nil_r.
  - cbn [scan]. unfold client_Get.
    destruct (db !! key) as [value|] eqn:Hkey; [|done].
    destruct (decode key value) as [o|e0] eqn:Ho; [|done].
    intros (objs' & -> & Hall)%IH. exists (o :: objs').
    rewrite <-app_assoc. split; [done|].
    constructor; [|done]. by exists value.
Qed.

Lemma scan_total db keys objects :
  Forall (λ key, ∃ o, decodes decode db key (Ok o)) keys →
  ∃ objs', scan decode db keys objects = (objects ++ objs', None) ∧
           length objs' = length keys.
Proof.
  intros Hall. revert objects.
  induction Hall as [|key keys (o & value & Hkey & Ho) _ IH]; intros objects.
  - exists []. by rewrite app_nil_r.
  - cbn [scan]. unfold client_Get. rewrite Hkey, Ho.
    destruct (IH (objects ++ [o])) as (objs' & -> & Hlen).
    exists (o :: objs'). rewrite <-app_assoc. split; [done|].
    cbn [length]. by rewrite Hlen.
Qed.


End Scan.

Section ListObjects.
Context {Time : Type} `{TimeJSON Time}.
Implicit Types (db : gmap string Document) (keys : list string).

Lemma Part000_loop_scan db keys objects :
  Part000.listObjects_loop db keys objects = scan extractObject db keys objects.
Proof.
  revert objects. induction keys as [|key keys IH]; intros objects; [done|].
  cbn [Part000.listObjects_loop scan]. destruct (client_Get db key); [|done].
  destruct (extractObject key a); [apply IH|done].
Qed.

Lemma DbGo_loop_scan db key0 keys objects :
  DbGo.listObjects_loop db key0 keys objects =
  scan (λ _, extractObject key0) db keys objects.
Proof.
  revert objects. induction keys as [|key keys IH]; intros objects; [done|].
  cbn [DbGo.listObjects_loop scan]. destruct (client_Get db key); [|done].
  destruct (extractObject key0 a); [apply IH|done].
Qed.

Lemma Part000_listObjects_scan db pattern :
  Part000.listObjects db pattern =
  scan extractObject db (matching_keys db pattern) [].
Proof.
  unfold Part000.listObjects, client_Keys.
  destruct (matching_keys db pattern) as [|key keys] eqn:Hkeys; [done|].
  apply Part000_loop_scan.
Qed.

Lemma DbGo_listObjects_scan db pattern :
  DbGo.listObjects db pattern =
  scan (λ _, extractObject (first_key (matching_keys db pattern))) db
    (matching_keys db pattern) [].
Proof.
  unfold DbGo.listObjects, client_Keys.
  destruct (matching_keys db pattern) as [|key keys] eqn:Hkeys; [done|].
  apply DbGo_loop_scan.
Qed.


End ListObjects.

(** * Lookup and deletion by id *)
Section ByID.
Context {Time : Type} `{TimeJSON Time}.
Implicit Types (db : gmap string Document) (id key : string).

Lemma length_one {A : Type} (l : list A) :
  length l ≠ 0 → ¬ 1 < length l → ∃ x, l = [x].
Proof. destruct l as [|x [|y l]]; cbn; intros; try lia; eauto. Qed.

Lemma GetObjectByID_one db id key :
  matching_keys db (id_pattern id) = [key] →
  ∃ value, db !! key = Some value ∧
           GetObjectByID (Time:=Time) db id = extractObject key value.
Proof.
  intros Hkeys.
  assert (key ∈ matching_keys db (id_pattern id)) as Hin
    by (rewrite Hkeys; apply list_elem_of_here).
  destruct (client_Get_matching _ _ _ Hin) as (value & Hvalue & Hget).
  exists value. split; [done|].
  unfold GetObjectByID, client_Keys. rewrite Hkeys. cbn. by rewrite Hget.
Qed.


End ByID.

(** C7: [DeleteObject] with no matching key succeeds and leaves the backend as
    it is; with more than one it fails with the ambiguous-id error; with
    exactly one it deletes that key and succeeds.  So a delete that succeeded
    can be repeated: the second call succeeds and changes nothing. *)
Theorem DeleteObject_idempotent (db : gmap string Document) (id : string) :
  let keys := matching_keys db (id_pattern id) in
  (length keys = 0 → DeleteObject db id = (db, None)) ∧
  (1 < length keys → DeleteObject db id = (db, Some ErrAmbiguousID)) ∧
  (∀ key, keys = [key] → DeleteObject db id = (delete key db, None)) ∧
  (∀ db', DeleteObject db id = (db', None) → DeleteObject db' id = (db', None)).
Proof.
  intros keys.
  assert (length keys = 0 → DeleteObject db id = (db, None)) as Hzero.
  { unfold DeleteObject, client_Keys. fold keys. by intros ->. }
  assert (∀ key, keys = [key] → DeleteObject db id = (delete key db, None)) as Hone.
  { intros key Hkeys. unfold DeleteObject, client_Keys. fold keys. by rewrite Hkeys. }
  split; [done|]. split; [|split; [done|]].
  - intros Hlen. unfold DeleteObject, client_Keys. fold keys.
    destruct keys as [|k1 [|k2 keys']]; cbn in *; try lia. done.
  - intros db' Hdel.
    destruct (decide (length keys = 0)) as [Hlen|Hlen].
    { rewrite Hzero in Hdel by done. injection Hdel as <-. by apply Hzero. }
    destruct (decide (1 < length keys)) as [Hmany|Hmany].
    { unfold DeleteObject, client_Keys in Hdel. fold keys in Hdel.
      destruct keys as [|k1 [|k2 keys']]; cbn in *; try lia. done. }
    destruct (length_one keys Hlen Hmany) as [key Hkeys].
    rewrite (Hone key Hkeys) in Hdel. injection Hdel as <-.
    unfold DeleteObject, client_Keys.
    by rewrite (matching_keys_deleted db (id_pattern id) key Hkeys).
Qed.

(** * Scans by name and by kind *)
Section Scans.
Context {Time : Type} `{TimeJSON Time}.
Implicit Types (db : gmap string Document).



(** When the scan of [Part000] succeeds there is one record for each matching
    key, decoded from the value under that key into the type its kind names. *)
Lemma Part000_listObjects_ok db pattern objs :
  Part000.listObjects (Time:=Time) db pattern = (objs, None) →
  Forall2 (λ key o, decodes extractObject db key (Ok o) ∧ GetKind o = getKind key)
    (matching_keys db pattern) objs.
Proof.
  rewrite Part000_listObjects_scan. intros (objs' & -> & Hall)%scan_ok.
  cbn [app]. eapply Forall2_impl; [done|].
  intros key o Hdec. split; [done|].
  destruct Hdec as (value & _ & Ho). by apply extractObject_kind in Ho.
Qed.

Lemma Part000_listObjects_total db pattern :
  Forall (λ key, ∃ o, decodes (extractObject (Time:=Time)) db key (Ok o))
    (matching_keys db pattern) →
  ∃ objs, Part000.listObjects (Time:=Time) db pattern = (objs, None) ∧
          length objs = length (matching_keys db pattern).
Proof.
  intros Hall. rewrite Part000_listObjects_scan.
  destruct (scan_total extractObject db _ [] Hall) as (objs & -> & Hlen).
  by exists objs.
Qed.

End Scans.

(** * Store *)
Section StoreFacts.
Context {Time : Type} `{TimeJSON Time}.
Implicit Types (db : gmap string Document) (o : @ObjectPtr Time) (id : string).


Lemma GetKind_nonempty o : GetKind o ≠ "".
Proof. by destruct o. Qed.

(** What either [Store] does once the key is known to pass or fail the count. *)
Lemma Part000_Store_unfold db id o :
  GetName o ≠ "" →
  ∃ value, json_Marshal (SetID o id) = Ok value ∧
    Part000.Store db id o =
      if negb (strings_Count (store_key id o) "::" =? 2)%nat
      then (db, SetID o id, Some ErrDelimiter)
      else (<[store_key id o := value]> db, SetID o id, None).
Proof.
  intros Hname%String.eqb_neq.
  destruct (json_Marshal_total (SetID o id)) as [value Hvalue].
  exists value. split; [done|].
  unfold Part000.Store. rewrite Hname.
  replace (GetKind o =? "")%string with false
    by (symmetry; apply String.eqb_neq, GetKind_nonempty).
  rewrite Hvalue. fold (store_key id (SetID o id)). rewrite store_key_SetID.
  by destruct (negb _).
Qed.

Lemma DbGo_Store_unfold db id o :
  ∃ value, json_Marshal o = Ok value ∧
    DbGo.Store db id o =
      if negb (strings_Count (store_key id o) "::" =? 2)%nat
      then (db, SetID o id, Some ErrDelimiter)
      else (<[store_key id o := value]> db, SetID o id, None).
Proof.
  destruct (json_Marshal_total o) as [value Hvalue].
  exists value. split; [done|].
  unfold DbGo.Store. rewrite Hvalue.
  fold (store_key id (SetID o id)). rewrite store_key_SetID.
  by destruct (negb _).
Qed.

(** The count on the key [Store] builds. *)
Lemma Count_store_key_uuid o id :
  is_uuid id = true →
  strings_Count (store_key id o) "::" =
  S (strings_Count (GetName o +:+ "::" +:+ GetKind o) "::").
Proof.
  intros Hid%is_uuid_no_colon. unfold store_key.
  rewrite Count_skip by done. apply Count_delimiter.
Qed.



(** With an empty name the key of a generated id has its two delimiters. *)
Lemma Count_store_key_empty_name o id :
  is_uuid id = true → GetName o = "" →
  strings_Count (store_key id o) "::" = 2.
Proof.
  intros Hid Hname. rewrite Count_store_key_uuid, Hname by done.
  by destruct o.
Qed.

Lemma Part000_Store_empty_name db id o :
  GetName o = "" →
  Part000.Store db id o = (db, o, Some (errors_New "missing object name")).
Proof. intros Hname. unfold Part000.Store. by rewrite Hname. Qed.


(** The check of [Part000.Store] that [DbGo.Store] does not have, for any
    type behind the interface. *)
Lemma Part000_Store_rejects_empty {T : Type} `{Object T} `{Marshal T}
    db id (object : T) :
  GetName object = "" ∨ GetKind object = "" →
  Part000.Store db id object = (db, object, Some (errors_New "missing object name")) ∨
  Part000.Store db id object = (db, object, Some (errors_New "missing object kind")).
Proof.
  unfold Part000.Store.
  destruct (String.eqb_spec (GetName object) ""); [by left|].
  intros [? | Hkind]; [done|]. rewrite Hkind. by right.
Qed.

(** Without that check a record without a name is written. *)
Lemma DbGo_Store_accepts_empty_name db id o :
  is_uuid id = true → GetName o = "" →
  ∃ value, json_Marshal o = Ok value ∧
    DbGo.Store db id o = (<[store_key id o := value]> db, SetID o id, None).
Proof.
  intros Hid Hname. destruct (DbGo_Store_unfold db id o) as (value & Hvalue & ->).
  rewrite Count_store_key_empty_name by done. by exists value.
Qed.

End StoreFacts.

(** * Store, then look up *)
Section RoundTrip.
Context {Time : Type} `{TimeJSON Time}.
Implicit Types (db : gmap string Document) (o : @ObjectPtr Time) (id : string).

Lemma json_stable_SetID o id : json_stable (SetID o id) ↔ json_stable o.
Proof. by destruct o. Qed.

Lemma GetObjectByID_fresh_key db id o value :
  is_uuid id = true → matching_keys db (id_pattern id) = [] →
  GetObjectByID (<[store_key id o := value]> db) id =
  extractObject (store_key id o) value.
Proof.
  intros Hid Hfresh.
  assert (matching_keys (<[store_key id o := value]> db) (id_pattern id)
          = [store_key id o]) as Hkeys.
  { apply matching_keys_fresh; [done|].
    apply glob_id_pattern. by apply is_uuid_no_star. }
  destruct (GetObjectByID_one _ _ _ Hkeys) as (value' & Hvalue' & ->).
  rewrite lookup_insert_eq in Hvalue'. by injection Hvalue' as <-.
Qed.



(** With a newline in the name the stored record cannot be read back by
    either copy: no kind is read off its key. *)
Lemma roundtrip_newline db id o value :
  is_uuid id = true → matching_keys db (id_pattern id) = [] →
  no_newline (GetName o) = false →
  GetObjectByID (Time:=Time) (<[store_key id o := value]> db) id = Err ErrUnknownKind.
Proof.
  intros Hid Hfresh Hname. rewrite GetObjectByID_fresh_key by done.
  assert (getKind (store_key id o) = "") as Hkind.
  { apply getKind_newline. unfold store_key, no_newline in *.
    rewrite !all_chars_app, Hname. by rewrite andb_false_r. }
  apply extractObject_unknown; by rewrite Hkind.
Qed.

End RoundTrip.

(** * What the two copies of listObjects return *)
Section Kinds.
Context {Time : Type} `{TimeJSON Time}.
Implicit Types (db : gmap string Document) (o : @ObjectPtr Time) (id : string).

(** [DbGo]: every record of a successful scan has the kind of the first key,
    whatever the kind in its own key. *)
Lemma DbGo_listObjects_first_kind db pattern objs :
  DbGo.listObjects (Time:=Time) db pattern = (objs, None) →
  Forall (λ o, GetKind o = getKind (first_key (matching_keys db pattern))) objs.
Proof.
  rewrite DbGo_listObjects_scan. intros (objs' & -> & Hall)%scan_ok.
  cbn [app]. eapply Forall2_Forall_r; [exact Hall|].
  apply Forall_forall. intros key _ o (value & _ & Ho).
  by apply extractObject_kind in Ho.
Qed.

(** [Part000.Store] keeps the backend readable, for a generated id and a
    record whose name holds no newline and whose time survives JSON. *)
Lemma Part000_Store_readable db id o :
  readable (Time:=Time) db → is_uuid id = true →
  no_newline (GetName o) = true → json_stable o →
  readable (Time:=Time) (Part000.Store db id o).1.1.
Proof.
  intros Hdb Hid Hname Hstable.
  destruct (decide (GetName o = "")) as [Hempty|Hempty].
  { by rewrite Part000_Store_empty_name. }
  destruct (Part000_Store_unfold db id o Hempty) as (value & Hvalue & ->).
  destruct (negb _); [done|]. cbn [fst].
  intros key value'. destruct (decide (key = store_key id o)) as [->|Hkey].
  - rewrite lookup_insert_eq. intros [= <-]. exists (SetID o id).
    rewrite <-(store_key_SetID o id id). apply extractObject_store_key.
    + by apply is_uuid_no_newline.
    + by destruct o.
    + by destruct o.
    + done.
  - rewrite lookup_insert_ne by done. apply Hdb.
Qed.

Lemma readable_empty : readable (Time:=Time) ∅.
Proof. intros key value. by rewrite lookup_empty. Qed.

(** On a readable backend the scans of [Part000] succeed, with one record
    for each matching key, of the type the kind in that key names. *)
Lemma Part000_listObjects_readable db pattern :
  readable (Time:=Time) db →
  ∃ objs, Part000.listObjects (Time:=Time) db pattern = (objs, None) ∧
    Forall2 (λ key o, decodes extractObject db key (Ok o) ∧ GetKind o = getKind key)
      (matching_keys db pattern) objs.
Proof.
  intros Hdb.
  destruct (Part000_listObjects_total db pattern) as (objs & Hobjs & _).
  { apply Forall_forall. intros key [_ [value Hvalue]]%elem_of_matching_keys.
    destruct (Hdb key value Hvalue) as [o Ho]. exists o, value. done. }
  exists objs. split; [done|]. by apply Part000_listObjects_ok.
Qed.

Lemma Part000_GetObjectsByName_readable db name :
  readable (Time:=Time) db → name ≠ "" →
  ∃ objs, Part000.GetObjectsByName (Time:=Time) db name = (objs, None) ∧
    Forall2 (λ key o, decodes extractObject db key (Ok o) ∧ GetKind o = getKind key)
      (matching_keys db (name_pattern name)) objs.
Proof.
  intros Hdb Hname%String.eqb_neq. unfold Part000.GetObjectsByName.
  rewrite Hname. by apply Part000_listObjects_readable.
Qed.

End Kinds.

(** * More on strings and patterns *)
Section MoreStrings.



(** Two splits of one text with heads of one length are one split. *)
Lemma app_inj_prefix (x y s t : string) :
  String.length x = String.length y → x +:+ s = y +:+ t → x = y ∧ s = t.
Proof.
  revert y. induction x as [|c x IH]; intros [|d y]; try done.
  cbn [String.length]. intros [= Hlen].
  change (String c x +:+ s) with (String c (x +:+ s)).
  change (String d y +:+ t) with (String d (y +:+ t)).
  intros [= -> Heq]. by destruct (IH y Hlen Heq) as [-> ->].
Qed.


Lemma has_layout_length (layout : list bool) (s : string) :
  has_layout layout s = true → String.length s = length layout.
Proof.
  revert s. induction layout as [|digit layout IH]; intros [|c s]; try done.
  cbn [has_layout]. intros [_ Hs]%andb_true_iff. cbn. by rewrite (IH s).
Qed.

Lemma is_uuid_length (id : string) : is_uuid id = true → String.length id = 36.
Proof. intros Hid. by rewrite (has_layout_length uuid_layout id). Qed.

(** A text without a colon in front of the delimiter is told by the key. *)
Lemma before_delimiter (a b x y : string) :
  no_colon a = true → no_colon b = true →
  a +:+ "::" +:+ x = b +:+ "::" +:+ y → a = b.
Proof.
  unfold no_colon. revert b. induction a as [|c a IH]; intros [|d b]; try done.
  - cbn [all_chars]. intros _ [Hd _]%andb_true_iff [= <-]. done.
  - cbn [all_chars]. intros [Hc _]%andb_true_iff _ [= ->]. done.
  - cbn [all_chars]. intros [_ Ha]%andb_true_iff [_ Hb]%andb_true_iff.
    change (String c a +:+ ?u) with (String c (a +:+ u)).
    change (String d b +:+ ?u) with (String d (b +:+ u)).
    intros [= -> Heq]. by rewrite (IH b Ha Hb Heq).
Qed.

Lemma Count_no_colon (k : string) :
  no_colon k = true → strings_Count k "::" = 0.
Proof.
  unfold no_colon. induction k as [|c k IH]; [done|].
  cbn [all_chars]. intros [Hc Hk]%andb_true_iff.
  apply negb_true_iff, Ascii.eqb_neq in Hc. by rewrite Count_other, IH.
Qed.

(** A name without the delimiter, the delimiter, and a kind without a colon:
    one occurrence. *)
Lemma Count_name_kind (s k : string) :
  strings_Contains s "::" = false → no_colon k = true →
  strings_HasPrefix k ":" = false →
  strings_Count (s +:+ "::" +:+ k) "::" = 1.
Proof.
  intros Hs Hk Hk'. induction s as [|c s IH].
  - change ("" +:+ "::" +:+ k) with ("::" +:+ k).
    by rewrite Count_delimiter, Count_no_colon.
  - cbn [strings_Contains] in Hs. apply orb_false_iff in Hs as [Hp Hs].
    change (String c s +:+ "::" +:+ k) with (String c (s +:+ "::" +:+ k)).
    destruct (decide (c = ":"%char)) as [->|Hc]; [|by rewrite Count_other, IH].
    destruct s as [|c' s].
    + change (String ":" ("" +:+ "::" +:+ k)) with ("::" +:+ String ":" k).
      rewrite Count_delimiter, Count_lone_colon, Count_no_colon; done.
    + simpl in Hp. rewrite andb_true_r in Hp.
      rewrite Count_lone_colon; [by apply IH|].
      change (String c' s +:+ "::" +:+ k) with (String c' (s +:+ "::" +:+ k)).
      simpl. by rewrite Hp.
Qed.



(** The id pattern of one generated id matches no key of another. *)
Lemma glob_id_pattern_other (id id' rest : string) :
  is_uuid id = true → is_uuid id' = true → id ≠ id' →
  glob (id_pattern id) (id' +:+ rest) = false.
Proof.
  intros Hid Hid' Hne. apply not_true_is_false. intros Hglob.
  apply glob_literal_inv in Hglob as (s' & Heq & _); [|by apply is_uuid_no_star].
  apply app_inj_prefix in Heq as [-> _]; [done|].
  by rewrite !is_uuid_length.
Qed.

(** What the id pattern matches begins with the id and the delimiter. *)
Lemma glob_id_pattern_inv (id key : string) :
  no_star id = true → glob (id_pattern id) key = true →
  ∃ rest, key = id +:+ "::" +:+ rest.
Proof.
  intros Hid (s' & -> & Hs')%glob_literal_inv; [|done].
  apply (glob_literal_inv "::" "*::*") in Hs' as (rest & -> & _); [|done].
  by exists rest.
Qed.

End MoreStrings.

(** * More on the backend *)
Section MoreBackend.
Implicit Types (db : gmap string Document) (key pattern : string).

Lemma matching_keys_empty pattern : matching_keys ∅ pattern = [].
Proof. unfold matching_keys. by rewrite map_to_list_empty. Qed.

Lemma matching_keys_delete_other db pattern key :
  glob pattern key = false →
  matching_keys (delete key db) pattern ≡ₚ matching_keys db pattern.
Proof.
  intros Hglob. destruct (db !! key) as [value|] eqn:Hkey.
  - rewrite (matching_keys_delete db pattern key value Hkey), Hglob. done.
  - by rewrite delete_id.
Qed.

Lemma matching_keys_insert_other db pattern key value :
  glob pattern key = false →
  matching_keys (<[key := value]> db) pattern ≡ₚ matching_keys db pattern.
Proof.
  intros Hglob. rewrite <-insert_delete_eq.
  rewrite matching_keys_insert, Hglob by apply lookup_delete_eq.
  by apply matching_keys_delete_other.
Qed.

(** [GetObjectByID] reads the scan only through its length and, when there is
    one key, that key. *)
Lemma GetObjectByID_same_scan {Time : Type} `{TimeJSON Time} db db' id :
  matching_keys db' (id_pattern id) ≡ₚ matching_keys db (id_pattern id) →
  (∀ key, key ∈ matching_keys db (id_pattern id) → db' !! key = db !! key) →
  GetObjectByID (Time:=Time) db' id = GetObjectByID db id.
Proof.
  intros Hperm Hsame. unfold GetObjectByID, client_Keys.
  pose proof (Permutation_length Hperm) as Hlen.
  destruct (matching_keys db (id_pattern id)) as [|key [|key2 keys]] eqn:Hkeys.
  - apply Permutation_nil_r in Hperm. by rewrite Hperm.
  - apply Permutation_singleton_r in Hperm. rewrite Hperm. cbn.
    unfold client_Get. rewrite Hsame; [done|]. apply list_elem_of_here.
  - destruct (matching_keys db' (id_pattern id)) as [|k1 [|k2 ks]]; done.
Qed.

(** A successful [DeleteObject] leaves no key that matches the id. *)
Lemma DeleteObject_None db id db' :
  DeleteObject db id = (db', None) →
  matching_keys db' (id_pattern id) = [] ∧
  (db' = db ∨ ∃ key, matching_keys db (id_pattern id) = [key] ∧ db' = delete key db).
Proof.
  unfold DeleteObject, client_Keys.
  destruct (matching_keys db (id_pattern id)) as [|key [|key2 keys]] eqn:Hkeys; cbn.
  - intros [= <-]. split; [done|by left].
  - intros [= <-]. split; [by apply matching_keys_deleted|].
    right. by exists key.
  - done.
Qed.

(** Whatever its result, [DeleteObject] removes at most one key, and that key
    matches the id. *)
Lemma DeleteObject_cases db id :
  (DeleteObject db id).1 = db ∨
  ∃ key, glob (id_pattern id) key = true ∧ (DeleteObject db id).1 = delete key db.
Proof.
  unfold DeleteObject, client_Keys.
  destruct (matching_keys db (id_pattern id)) as [|key [|key2 keys]] eqn:Hkeys; cbn;
    [by left| |by left].
  right. exists key. split; [|done].
  assert (key ∈ matching_keys db (id_pattern id)) as Hin
    by (rewrite Hkeys; apply list_elem_of_here).
  by apply elem_of_matching_keys in Hin as [? _].
Qed.

Lemma fresh_not_stored db id rest :
  no_star id = true → matching_keys db (id_pattern id) = [] →
  db !! (id +:+ "::" +:+ rest) = None ∨ glob (id_pattern id) (id +:+ "::" +:+ rest) = false.
Proof.
  intros Hid Hfresh.
  destruct (db !! (id +:+ "::" +:+ rest)) as [v|] eqn:Hv; [|by left].
  right. apply not_true_is_false. intros Hglob.
  assert (id +:+ "::" +:+ rest ∈ matching_keys db (id_pattern id)) as Hin
    by (apply elem_of_matching_keys; eauto).
  rewrite Hfresh in Hin. by apply elem_of_nil in Hin.
Qed.

End MoreBackend.

(** * More on the operations *)
Section Operations.
Context {Time : Type} `{TimeJSON Time}.
Implicit Types (db : gmap string Document) (o : @ObjectPtr Time) (id : string).


Lemma Count_store_key_no_delimiter o id :
  is_uuid id = true → strings_Contains (GetName o) "::" = false →
  strings_Count (store_key id o) "::" = 2.
Proof.
  intros Hid Hname. rewrite Count_store_key_uuid by done.
  rewrite Count_name_kind; [done|done|by destruct o..].
Qed.




(** X4: what [GetObjectByID] returns for one generated id is not changed by a
    [Store] under another generated id, of either copy, nor by a
    [DeleteObject] of another generated id. *)
Theorem other_id_untouched db id id' o :
  is_uuid id = true → is_uuid id' = true → id ≠ id' →
  GetObjectByID (Part000.Store db id' o).1.1 id = GetObjectByID (Time:=Time) db id ∧
  GetObjectByID (DbGo.Store db id' o).1.1 id = GetObjectByID (Time:=Time) db id ∧
  GetObjectByID (DeleteObject db id').1 id = GetObjectByID (Time:=Time) db id.
Proof.
  intros Hid Hid' Hne.
  assert (∀ rest value, GetObjectByID (<[id' +:+ rest := value]> db) id
                        = GetObjectByID (Time:=Time) db id) as Hinsert.
  { intros rest value. apply GetObjectByID_same_scan.
    - apply matching_keys_insert_other. by apply glob_id_pattern_other.
    - intros key [Hglob _]%elem_of_matching_keys. apply lookup_insert_ne.
      intros <-. by rewrite glob_id_pattern_other in Hglob. }
  split; [|split].
  - destruct (decide (GetName o = "")) as [Hempty|Hempty].
    { by rewrite Part000_Store_empty_name. }
    destruct (Part000_Store_unfold db id' o Hempty) as (value & _ & ->).
    destruct (negb _); [done|]. apply Hinsert.
  - destruct (DbGo_Store_unfold db id' o) as (value & _ & ->).
    destruct (negb _); [done|]. apply Hinsert.
  - destruct (DeleteObject_cases db id') as [->|(key & Hglob & ->)]; [done|].
    apply glob_literal_inv in Hglob as (rest & -> & _); [|by apply is_uuid_no_star].
    apply GetObjectByID_same_scan.
    + apply matching_keys_delete_other. by apply glob_id_pattern_other.
    + intros key [Hglob _]%elem_of_matching_keys. apply lookup_delete_ne.
      intros <-. by rewrite glob_id_pattern_other in Hglob.
Qed.

Lemma fresh_key_absent db id o :
  is_uuid id = true → matching_keys db (id_pattern id) = [] →
  db !! store_key id o = None.
Proof.
  intros Hid Hfresh.
  destruct (fresh_not_stored db id (GetName o +:+ "::" +:+ GetKind o))
    as [?|Hglob]; [by apply is_uuid_no_star|done|done|].
  rewrite glob_id_pattern in Hglob; [done|by apply is_uuid_no_star].
Qed.

(** X5: a [Store] under a fresh generated id followed by [DeleteObject] of
    that id gives back the backend as it was before the two calls. *)
Theorem Store_then_DeleteObject db id o :
  is_uuid id = true → matching_keys db (id_pattern id) = [] →
  DeleteObject (Part000.Store db id o).1.1 id = (db, None) ∧
  DeleteObject (DbGo.Store db id o).1.1 id = (db, None).
Proof.
  intros Hid Hfresh.
  assert (DeleteObject db id = (db, None)) as Hnone.
  { unfold DeleteObject, client_Keys. by rewrite Hfresh. }
  assert (∀ value, DeleteObject (<[store_key id o := value]> db) id = (db, None))
    as Hinsert.
  { intros value. unfold DeleteObject, client_Keys.
    rewrite (matching_keys_fresh db); [|done|].
    - cbn. rewrite delete_insert_id; [done|by apply fresh_key_absent].
    - apply glob_id_pattern. by apply is_uuid_no_star. }
  split.
  - destruct (decide (GetName o = "")) as [Hempty|Hempty].
    { by rewrite Part000_Store_empty_name. }
    destruct (Part000_Store_unfold db id o Hempty) as (value & _ & ->).
    destruct (negb _); cbn [fst]; [done|apply Hinsert].
  - destruct (DbGo_Store_unfold db id o) as (value & _ & ->).
    destruct (negb _); cbn [fst]; [done|apply Hinsert].
Qed.

(** X6: after a [DeleteObject] that succeeded no key matches the id any more
    and [GetObjectByID] of that id returns the not-found error. *)
Theorem DeleteObject_then_GetObjectByID db id db' :
  DeleteObject db id = (db', None) →
  matching_keys db' (id_pattern id) = [] ∧
  GetObjectByID (Time:=Time) db' id = Err ErrNotFound.
Proof.
  intros [Hkeys _]%DeleteObject_None. split; [done|].
  unfold GetObjectByID, client_Keys. by rewrite Hkeys.
Qed.

End Operations.

(** * Invariants of the backend *)
Section Invariants.
Context {Time : Type} `{TimeJSON Time}.
Implicit Types (db : gmap string Document) (o : @ObjectPtr Time) (id : string).

Lemma keyed_by_uuid_insert db id rest value :
  keyed_by_uuid db → is_uuid id = true →
  keyed_by_uuid (<[id +:+ "::" +:+ rest := value]> db).
Proof.
  intros Hdb Hid key. destruct (decide (key = id +:+ "::" +:+ rest)) as [->|Hne].
  - intros _. by exists id, rest.
  - rewrite lookup_insert_ne by done. apply Hdb.
Qed.

Lemma keyed_by_uuid_delete db key : keyed_by_uuid db → keyed_by_uuid (delete key db).
Proof.
  intros Hdb key'. destruct (decide (key' = key)) as [->|Hne].
  - rewrite lookup_delete_eq. by intros [? ?].
  - rewrite lookup_delete_ne by done. apply Hdb.
Qed.

Lemma readable_delete db key :
  readable (Time:=Time) db → readable (Time:=Time) (delete key db).
Proof.
  intros Hdb key' value. destruct (decide (key' = key)) as [->|Hne].
  - by rewrite lookup_delete_eq.
  - rewrite lookup_delete_ne by done. apply Hdb.
Qed.

Lemma DbGo_Store_readable db id o :
  readable (Time:=Time) db → is_uuid id = true →
  no_newline (GetName o) = true → json_stable o →
  readable (Time:=Time) (DbGo.Store db id o).1.1.
Proof.
  intros Hdb Hid Hname Hstable.
  destruct (DbGo_Store_unfold db id o) as (value & Hvalue & ->).
  destruct (negb _); [done|]. cbn [fst].
  intros key value'. destruct (decide (key = store_key id o)) as [->|Hkey].
  - rewrite lookup_insert_eq. intros [= <-]. exists o.
    apply extractObject_store_key; [by apply is_uuid_no_newline|done..].
  - rewrite lookup_insert_ne by done. apply Hdb.
Qed.

Lemma Part000_Store_keyed db id o :
  keyed_by_uuid db → is_uuid id = true →
  keyed_by_uuid (Part000.Store db id o).1.1.
Proof.
  intros Hdb Hid. destruct (decide (GetName o = "")) as [Hempty|Hempty].
  { by rewrite Part000_Store_empty_name. }
  destruct (Part000_Store_unfold db id o Hempty) as (value & _ & ->).
  destruct (negb _); [done|]. by apply keyed_by_uuid_insert.
Qed.

Lemma DbGo_Store_keyed db id o :
  keyed_by_uuid db → is_uuid id = true →
  keyed_by_uuid (DbGo.Store db id o).1.1.
Proof.
  intros Hdb Hid. destruct (DbGo_Store_unfold db id o) as (value & _ & ->).
  destruct (negb _); [done|]. by apply keyed_by_uuid_insert.
Qed.

Lemma keyed_by_uuid_empty : keyed_by_uuid ∅.
Proof. intros key. rewrite lookup_empty. by intros [? ?]. Qed.

(** X7: two properties of the backend hold at the start and are kept by
    every call.  Each key begins with a generated id and the delimiter:
    kept by [Store] of either copy and by [DeleteObject].  Each record
    decodes under its own key: kept by [DeleteObject], and by [Store] of
    either copy for a name without a newline and a time that survives JSON. *)
Theorem backend_invariants db id o :
  is_uuid id = true →
  keyed_by_uuid ∅ ∧ readable (Time:=Time) ∅ ∧
  (keyed_by_uuid db →
     keyed_by_uuid (Part000.Store db id o).1.1 ∧
     keyed_by_uuid (DbGo.Store db id o).1.1 ∧
     ∀ id', keyed_by_uuid (DeleteObject db id').1) ∧
  (readable (Time:=Time) db →
     (no_newline (GetName o) = true → json_stable o →
        readable (Time:=Time) (Part000.Store db id o).1.1 ∧
        readable (Time:=Time) (DbGo.Store db id o).1.1) ∧
     ∀ id', readable (Time:=Time) (DeleteObject db id').1).
Proof.
  intros Hid. split; [|split; [|split]].
  - apply keyed_by_uuid_empty.
  - apply readable_empty.
  - intros Hdb. split; [|split].
    + by apply Part000_Store_keyed.
    + by apply DbGo_Store_keyed.
    + intros id'. destruct (DeleteObject_cases db id') as [->|(key & _ & ->)];
        [done|by apply keyed_by_uuid_delete].
  - intros Hdb. split.
    + intros Hname Hstable. split.
      * by apply Part000_Store_readable.
      * by apply DbGo_Store_readable.
    + intros id'. destruct (DeleteObject_cases db id') as [->|(key & _ & ->)];
        [done|by apply readable_delete].
Qed.

(** An id that is no generated id and holds neither colon nor star matches
    no key that begins with a generated id. *)
Lemma no_key_for_unknown_id db id :
  keyed_by_uuid db → is_uuid id = false →
  no_colon id = true → no_star id = true →
  matching_keys db (id_pattern id) = [].
Proof.
  intros Hdb Hid Hcolon Hstar.
  apply elem_of_nil_inv. intros key [Hglob Hkey]%elem_of_matching_keys.
  destruct (Hdb key Hkey) as (id' & rest & -> & Hid').
  apply glob_id_pattern_inv in Hglob as [rest' Heq]; [|done].
  apply before_delimiter in Heq; [|by apply is_uuid_no_colon|done].
  congruence.
Qed.


End Invariants.

(** * More on the scans *)
Section MoreScans.
Context {Time : Type} `{TimeJSON Time}.
Implicit Types (db : gmap string Document) (o : @ObjectPtr Time) (id : string).






End MoreScans.

(** * Store, then scan *)
Section StoreThenScan.
Context {Time : Type} `{TimeJSON Time}.
Implicit Types (db : gmap string Document) (o : @ObjectPtr Time) (id : string).





(** X13: the id goes into the pattern as it is, too.  On a backend with a
    single record, [DeleteObject] with the id [*] deletes that record and
    [GetObjectByID] with the id [*] returns it, whatever its id. *)
Theorem wildcard_id (id name kind : string) (value : Document) :
  let key := id +:+ "::" +:+ name +:+ "::" +:+ kind in
  DeleteObject {[key := value]} "*" = (∅, None) ∧
  GetObjectByID (Time:=Time) {[key := value]} "*" = extractObject key value.
Proof.
  intros key.
  assert (matching_keys {[key := value]} (id_pattern "*") = [key]) as Hkeys.
  { unfold matching_keys. rewrite map_to_list_singleton. cbn [fmap list_fmap fst].
    rewrite filter_cons, filter_nil. cbn [fst].
    assert (glob (id_pattern "*") key = true) as ->; [|done].
    unfold key. change (id_pattern "*") with (String "*" "::*::*").
    apply glob_star_skip. rewrite (glob_literal "::" "*::*") by done.
    apply (glob_star_skip "::*"). rewrite (glob_literal "::" "*") by done.
    apply glob_star_all. }
  split.
  - unfold DeleteObject, client_Keys. rewrite Hkeys. cbn.
    by rewrite delete_singleton_eq.
  - destruct (GetObjectByID_one {[key := value]} "*" key Hkeys)
      as (value' & Hvalue' & ->).
    rewrite lookup_singleton_eq in Hvalue'. by injection Hvalue' as <-.
Qed.

(** X14: [GetObjectByID] never returns a record stored under another id:
    what it returns for a generated id was decoded from the value under the
    one matching key, and that key begins with the id and the delimiter. *)
Theorem GetObjectByID_own_key db id o :
  is_uuid id = true →
  GetObjectByID (Time:=Time) db id = Ok o →
  ∃ rest value, db !! (id +:+ "::" +:+ rest) = Some value ∧
                extractObject (id +:+ "::" +:+ rest) value = Ok o ∧
                matching_keys db (id_pattern id) = [id +:+ "::" +:+ rest].
Proof.
  intros Hid Hget.
  assert (∃ key, matching_keys db (id_pattern id) = [key]) as [key Hkeys].
  { unfold GetObjectByID, client_Keys in Hget.
    destruct (matching_keys db (id_pattern id)) as [|key [|key2 keys]]; try done.
    by exists key. }
  destruct (GetObjectByID_one db id key Hkeys) as (value & Hvalue & Heq).
  assert (key ∈ matching_keys db (id_pattern id)) as [Hglob _]%elem_of_matching_keys
    by (rewrite Hkeys; apply list_elem_of_here).
  apply glob_id_pattern_inv in Hglob as [rest ->]; [|by apply is_uuid_no_star].
  exists rest, value. by rewrite <-Heq.
Qed.

End StoreThenScan.

(** X15: [getKind] returns the empty string for every key that holds a
    newline.  For a key without one it returns the text after the final
    delimiter, and the empty string when there is no delimiter.  So a kind
    that is not empty is always the end of the key, behind a delimiter. *)
Theorem getKind_cases (key : string) :
  (no_newline key = false → getKind key = "") ∧
  (no_newline key = true → getKind key = default "" (after_last_delimiter key)) ∧
  (strings_Contains key "::" = false → getKind key = "") ∧
  (getKind key ≠ "" →
     no_newline key = true ∧
     ∃ pre, key = pre +:+ "::" +:+ getKind key ∧
            strings_Contains (":" +:+ getKind key) "::" = false).
Proof.
  split; [apply getKind_newline|]. split; [apply getKind_after_last|]. split.
  - intros Hkey%after_last_delimiter_None.
    destruct (no_newline key) eqn:Hnl; [|by apply getKind_newline].
    by rewrite getKind_after_last, Hkey.
  - intros Hne. destruct (no_newline key) eqn:Hnl;
      [|by rewrite getKind_newline in Hne].
    split; [done|]. rewrite getKind_after_last in Hne |- * by done.
    destruct (after_last_delimiter key) as [rest|] eqn:Hrest; [|done].
    by apply after_last_delimiter_Some in Hrest.
Qed.

(** * The demo *)
Section Demo.
Context {Time : Type} `{TimeJSON Time}.
Implicit Types (db : gmap string Document) (o : @ObjectPtr Time) (id : string).

(** A payload written for a record without an id decodes under every key of
    a known kind, and what comes out has no id either. *)
Lemma decode_without_id o value key :
  json_Marshal o = Ok value → GetID o = "" → json_stable o →
  getKind key = "*main.Animal" ∨ getKind key = "*main.Person" →
  ∃ o', extractObject (Time:=Time) key value = Ok o' ∧ GetID o' = "".
Proof.
  intros Hvalue Hid Hstable Hkind. unfold extractObject.
  destruct o as [[n i t w]|[n i l b t]]; cbn in Hid, Hstable; subst i;
    injection Hvalue as <-; destruct Hkind as [-> | ->].
  - by eexists.
  - by eexists.
  - by eexists.
  - unfold time_stable in Hstable.
    cbv -[Time_UnmarshalJSON Time_MarshalJSON Time_zero]. rewrite Hstable.
    by eexists.
Qed.

Lemma written_without_id_kind db key :
  written_without_id (Time:=Time) db → is_Some (db !! key) →
  getKind key = "*main.Animal" ∨ getKind key = "*main.Person".
Proof.
  intros Hdb [value Hvalue].
  destruct (Hdb key value Hvalue) as (id & o & -> & Hid & Hname & _).
  rewrite getKind_store_key by auto using is_uuid_no_newline.
  apply GetKind_cases.
Qed.

Lemma written_without_id_keyed db :
  written_without_id (Time:=Time) db → keyed_by_uuid db.
Proof.
  intros Hdb key [value Hvalue].
  destruct (Hdb key value Hvalue) as (id & o & -> & Hid & _).
  by exists id, (GetName o +:+ "::" +:+ GetKind o).
Qed.

Lemma DbGo_Store_written db id o :
  written_without_id (Time:=Time) db → is_uuid id = true →
  no_newline (GetName o) = true → GetID o = "" → json_stable o →
  written_without_id (Time:=Time) (DbGo.Store db id o).1.1.
Proof.
  intros Hdb Hid Hname Hnoid Hstable.
  destruct (DbGo_Store_unfold db id o) as (value & Hvalue & ->).
  destruct (negb _); [done|]. cbn [fst].
  intros key value'. destruct (decide (key = store_key id o)) as [->|Hkey].
  - rewrite lookup_insert_eq. intros [= <-]. by exists id, o.
  - rewrite lookup_insert_ne by done. apply Hdb.
Qed.

(** On such a backend every scan of [DbGo] succeeds, with one record for each
    matching key, none of which has an id. *)
Lemma DbGo_listObjects_written db pattern :
  written_without_id (Time:=Time) db →
  ∃ objs, DbGo.listObjects (Time:=Time) db pattern = (objs, None) ∧
          length objs = length (matching_keys db pattern) ∧
          Forall (λ o, GetID o = "") objs.
Proof.
  intros Hdb. rewrite DbGo_listObjects_scan.
  assert (∀ key, key ∈ matching_keys db pattern → is_Some (db !! key)) as Hkeys
    by (intros key [_ ?]%elem_of_matching_keys; done).
  destruct (matching_keys db pattern) as [|key0 keys'] eqn:Heq; [by exists []|].
  change (first_key (key0 :: keys')) with key0.
  assert (getKind key0 = "*main.Animal" ∨ getKind key0 = "*main.Person") as Hkind.
  { eapply written_without_id_kind; [done|]. apply Hkeys, list_elem_of_here. }
  assert (∀ key value, db !! key = Some value →
            ∃ o', extractObject (Time:=Time) key0 value = Ok o' ∧ GetID o' = "")
    as Hdecode.
  { intros key value Hvalue.
    destruct (Hdb key value Hvalue) as (id & o & _ & _ & _ & Hm & Hnoid & Hst).
    by eapply decode_without_id. }
  destruct (scan_total (λ _, extractObject key0) db (key0 :: keys') [])
    as (objs & Hscan & Hlen).
  { apply Forall_forall. intros key [value Hvalue]%Hkeys.
    destruct (Hdecode key value Hvalue) as (o' & Ho' & _).
    exists o'. exists value. by split. }
  exists objs. split; [done|]. split; [done|].
  apply scan_ok in Hscan as (objs' & [= ->] & Hall).
  eapply Forall2_Forall_r; [exact Hall|].
  apply Forall_forall. intros key _ o (value & Hvalue & Ho).
  destruct (Hdecode key value Hvalue) as (o' & Ho' & Hnoid). congruence.
Qed.

Lemma main_delete_loop_without_id db (persons : list (@ObjectPtr Time)) :
  matching_keys db (id_pattern "") = [] →
  Forall (λ o, GetID o = "") persons →
  main_delete_loop db persons = (db, None).
Proof.
  intros Hkeys Hall. induction Hall as [|alice persons Hnoid _ IH]; [done|].
  cbn [main_delete_loop]. rewrite Hnoid.
  unfold DeleteObject at 1, client_Keys. by rewrite Hkeys.
Qed.

(** X16: the demo of src/object.go on the store of src/db.go does not reach
    its end.  The records it lists carry no id, because [DbGo.Store] wrote
    the payloads before it set the ids: the deletes of the listed persons
    find nothing, and the lookup of the listed animal by its id ends the run
    in [log.Fatalf] with the not-found error. *)
Theorem main_ends_in_Fatalf (id1 id2 id3 : string) :
  is_uuid id1 = true → is_uuid id2 = true → is_uuid id3 = true →
  time_stable (Time_zero (Time:=Time)) →
  main (Time:=Time) id1 id2 id3 = Fatalf ErrNotFound.
Proof.
  intros Hid1 Hid2 Hid3 Hzero. unfold main.
  set (animal := AnimalPtr (Animal.mk "tiger" "" "wild-animal" "alice")).
  set (person1 := PersonPtr (Person.mk "alice" "" "jordon" "" Time_zero)).
  set (person2 := PersonPtr (Person.mk "alice" "" "macy" "" Time_zero)).
  assert (written_without_id (Time:=Time) ∅) as Hdb0
    by (intros key value; by rewrite lookup_empty).
  pose proof (DbGo_Store_written ∅ id1 animal Hdb0 Hid1 eq_refl eq_refl I) as Hdb1.
  destruct (DbGo_Store_unfold ∅ id1 animal) as (v1 & Hv1 & HS1).
  rewrite Count_store_key_no_delimiter in HS1 by done. cbn [negb Nat.eqb] in HS1.
  rewrite HS1 in Hdb1 |- *. cbn [fst] in Hdb1.
  set (db1 := <[store_key id1 animal := v1]> ∅) in *.
  pose proof (DbGo_Store_written db1 id2 person1 Hdb1 Hid2 eq_refl eq_refl Hzero) as Hdb2.
  destruct (DbGo_Store_unfold db1 id2 person1) as (v2 & Hv2 & HS2).
  rewrite Count_store_key_no_delimiter in HS2 by done. cbn [negb Nat.eqb] in HS2.
  rewrite HS2 in Hdb2 |- *. cbn [fst] in Hdb2.
  set (db2 := <[store_key id2 person1 := v2]> db1) in *.
  pose proof (DbGo_Store_written db2 id3 person2 Hdb2 Hid3 eq_refl eq_refl Hzero) as Hdb3.
  destruct (DbGo_Store_unfold db2 id3 person2) as (v3 & Hv3 & HS3).
  rewrite Count_store_key_no_delimiter in HS3 by done. cbn [negb Nat.eqb] in HS3.
  rewrite HS3 in Hdb3 |- *. cbn [fst] in Hdb3.
  set (db3 := <[store_key id3 person2 := v3]> db2) in *.
  assert (is_Some (db3 !! store_key id1 animal)) as Hk1.
  { unfold db3, db2, db1. rewrite !lookup_insert_is_Some.
    destruct (decide (store_key id3 person2 = store_key id1 animal)); [by left|].
    right. split; [done|].
    destruct (decide (store_key id2 person1 = store_key id1 animal)); [by left|].
    right. split; [done|]. by left. }
  assert (is_Some (db3 !! store_key id3 person2)) as Hk3.
  { unfold db3. rewrite lookup_insert_is_Some. by left. }
  assert (matching_keys db3 (id_pattern "") = []) as Hnone.
  { apply no_key_for_unknown_id; [by apply written_without_id_keyed|done..]. }
  unfold DbGo.GetObjectsByName, DbGo.ListObjects.
  change ("tiger" =? "")%string with false.
  change ("alice" =? "")%string with false. cbv iota.
  destruct (DbGo_listObjects_written db3 (name_pattern "tiger") Hdb3)
    as (tiger & -> & Hlen_t & Hall_t).
  destruct (DbGo_listObjects_written db3 (name_pattern "alice") Hdb3)
    as (persons & -> & Hlen_p & Hall_p).
  destruct persons as [|persons_0 persons'].
  { exfalso. symmetry in Hlen_p. apply length_zero_iff_nil in Hlen_p.
    assert (store_key id3 person2 ∈ matching_keys db3 (name_pattern "alice")) as Hin.
    { apply elem_of_matching_keys. split; [|done]. by apply glob_name_pattern. }
    rewrite Hlen_p in Hin. by apply elem_of_nil in Hin. }
  destruct tiger as [|tiger_0 tiger'].
  { exfalso. symmetry in Hlen_t. apply length_zero_iff_nil in Hlen_t.
    assert (store_key id1 animal ∈ matching_keys db3 (name_pattern "tiger")) as Hin.
    { apply elem_of_matching_keys. split; [|done]. by apply glob_name_pattern. }
    rewrite Hlen_t in Hin. by apply elem_of_nil in Hin. }
  cbv zeta.
  replace (GetKind persons_0 =? "")%string with false
    by (symmetry; apply String.eqb_neq, GetKind_nonempty).
  destruct (DbGo_listObjects_written db3 (kind_pattern (GetKind persons_0)) Hdb3)
    as (listed & -> & _ & Hall_l).
  rewrite main_delete_loop_without_id by done.
  apply Forall_cons in Hall_t as [-> _].
  unfold GetObjectByID, client_Keys. by rewrite Hnone.
Qed.

End Demo.

(** * The store at work *)
Import TextTime.

(** C1: the round trip fails in two ways.  [DbGo.Store] writes the payload
    before it sets the id, so [GetObjectByID] gives the record back with the
    id it had before the call, not the one assigned.  And a record whose name
    holds a newline is stored by [Part000.Store] but not found again: no
    kind is read off its key. *)
Theorem roundtrip_failing_inputs :
  (DbGo.Store ∅ uuid1 fluffy).2 = None ∧
  GetID (DbGo.Store ∅ uuid1 fluffy).1.2 = uuid1 ∧
  GetObjectByID (DbGo.Store ∅ uuid1 fluffy).1.1 uuid1 = Ok fluffy ∧
  GetID fluffy = "" ∧
  (Part000.Store ∅ uuid1 two_lines).2 = None ∧
  GetObjectByID (Part000.Store ∅ uuid1 two_lines).1.1 uuid1 = Err ErrUnknownKind.
Proof. by vm_compute. Qed.

(** C2: two records of one name, an animal and a person, stored and listed
    by name through [DbGo]: both come back as the type of the first key. *)
Theorem DbGo_GetObjectsByName_one_type :
  let db := (DbGo.Store (DbGo.Store ∅ uuid1 fluffy).1.1 uuid2 fluffy_person).1.1 in
  getKind <$> matching_keys db (name_pattern "fluffy")
    = ["*main.Person"; "*main.Animal"] ∧
  (DbGo.GetObjectsByName db "fluffy").2 = None ∧
  GetKind <$> (DbGo.GetObjectsByName db "fluffy").1
    = ["*main.Person"; "*main.Person"].
Proof. by vm_compute. Qed.

(** C3: [DbGo.Store] has no check of the name: a record without a name is
    written to the backend and no error is returned. *)
Theorem DbGo_Store_empty_name :
  GetName nameless = "" ∧
  (DbGo.Store ∅ uuid1 nameless).2 = None ∧
  is_Some ((DbGo.Store ∅ uuid1 nameless).1.1 !! store_key uuid1 nameless).
Proof. split; [done|]. split; [by vm_compute|]. by vm_compute; eexists. Qed.

(** C6: a key with a delimiter and a newline: the text after the final
    delimiter is the kind, yet [getKind] returns the empty string. *)
Theorem getKind_newline_key :
  let key := store_key uuid1 two_lines in
  strings_Contains key "::" = true ∧
  after_last_delimiter key = Some "*main.Animal" ∧
  getKind key = "".
Proof. by vm_compute. Qed.

(** C10: the argument goes into the pattern as it is.  With the one record
    [fluffy] in the store, [GetObjectsByName] with the name [*] and
    [ListObjects] with the kind [*] both return it, in either copy, though
    neither its name nor its kind is [*]. *)
Theorem wildcard_in_argument :
  (∃ (db : RedisDB) name objs (o : @ObjectPtr string),
     strings_Contains name "*" = true ∧
     Part000.GetObjectsByName db name = (objs, None) ∧
     o ∈ objs ∧ GetName o ≠ name) ∧
  (∃ (db : RedisDB) kind objs (o : @ObjectPtr string),
     strings_Contains kind "*" = true ∧
     Part000.ListObjects db kind = (objs, None) ∧
     o ∈ objs ∧ GetKind o ≠ kind) ∧
  (∃ (db : RedisDB) name objs (o : @ObjectPtr string),
     strings_Contains name "*" = true ∧
     DbGo.GetObjectsByName db name = (objs, None) ∧
     o ∈ objs ∧ GetName o ≠ name) ∧
  (∃ (db : RedisDB) kind objs (o : @ObjectPtr string),
     strings_Contains kind "*" = true ∧
     DbGo.ListObjects db kind = (objs, None) ∧
     o ∈ objs ∧ GetKind o ≠ kind).
Proof.
  split; [|split; [|split]].
  - exists (Part000.Store ∅ uuid1 fluffy).1.1, "*", [SetID fluffy uuid1], (SetID fluffy uuid1).
    split; [done|]. split; [by vm_compute|]. split; [apply list_elem_of_here|done].
  - exists (Part000.Store ∅ uuid1 fluffy).1.1, "*", [SetID fluffy uuid1], (SetID fluffy uuid1).
    split; [done|]. split; [by vm_compute|]. split; [apply list_elem_of_here|done].
  - exists (DbGo.Store ∅ uuid1 fluffy).1.1, "*", [fluffy], fluffy.
    split; [done|]. split; [by vm_compute|]. split; [apply list_elem_of_here|done].
  - exists (DbGo.Store ∅ uuid1 fluffy).1.1, "*", [fluffy], fluffy.
    split; [done|]. split; [by vm_compute|]. split; [apply list_elem_of_here|done].
Qed.


(** * The theorems above at the records of the tests *)


Lemma DeleteObject_idempotent_witness :
  DeleteObject ∅ uuid1 = (∅, None) ∧
  DeleteObject same_id_twice uuid1 = (same_id_twice, Some ErrAmbiguousID) ∧
  DeleteObject one_record uuid1 = (delete (store_key uuid1 fluffy) one_record, None) ∧
  DeleteObject (delete (store_key uuid1 fluffy) one_record) uuid1
  = (delete (store_key uuid1 fluffy) one_record, None).
Proof.
  destruct (DeleteObject_idempotent ∅ uuid1) as (Hnone & _ & _ & _).
  destruct (DeleteObject_idempotent same_id_twice uuid1) as (_ & Hmany & _ & _).
  destruct (DeleteObject_idempotent one_record uuid1) as (_ & _ & Hone & Htwice).
  assert (DeleteObject one_record uuid1
          = (delete (store_key uuid1 fluffy) one_record, None)) as Hdel.
  { apply Hone. by vm_compute. }
  split; [|split; [|split]].
  - apply Hnone. by vm_compute.
  - apply Hmany. vm_compute. lia.
  - exact Hdel.
  - exact (Htwice _ Hdel).
Defined.




(** * The further theorems at the records of the tests *)

Lemma readable_one_record : readable (Time:=string) one_record.
Proof. by apply (Part000_Store_readable ∅ uuid1 fluffy readable_empty). Qed.

Lemma keyed_one_record : keyed_by_uuid one_record.
Proof. by apply (Part000_Store_keyed ∅ uuid1 fluffy keyed_by_uuid_empty). Qed.



Lemma other_id_untouched_witness :
  is_uuid uuid1 = true ∧ is_uuid uuid2 = true ∧
  GetObjectByID (Part000.Store one_record uuid2 fluffy_person).1.1 uuid1
  = GetObjectByID one_record uuid1 ∧
  GetObjectByID (DbGo.Store one_record uuid2 fluffy_person).1.1 uuid1
  = GetObjectByID one_record uuid1 ∧
  GetObjectByID (Time:=string) (DeleteObject one_record uuid2).1 uuid1
  = GetObjectByID one_record uuid1.
Proof.
  split; [reflexivity|]. split; [reflexivity|].
  apply (other_id_untouched one_record uuid1 uuid2 fluffy_person eq_refl eq_refl).
  discriminate.
Defined.

Lemma Store_then_DeleteObject_witness :
  is_uuid uuid2 = true ∧ matching_keys one_record (id_pattern uuid2) = [] ∧
  DeleteObject (Part000.Store one_record uuid2 fluffy_person).1.1 uuid2
  = (one_record, None) ∧
  DeleteObject (DbGo.Store one_record uuid2 fluffy_person).1.1 uuid2
  = (one_record, None).
Proof.
  assert (matching_keys one_record (id_pattern uuid2) = []) as Hfresh
    by (by vm_compute).
  split; [reflexivity|]. split; [done|].
  exact (Store_then_DeleteObject one_record uuid2 fluffy_person eq_refl Hfresh).
Defined.

Lemma DeleteObject_then_GetObjectByID_witness :
  DeleteObject one_record uuid1 = (∅, None) ∧
  matching_keys (∅ : RedisDB) (id_pattern uuid1) = [] ∧
  GetObjectByID (Time:=string) ∅ uuid1 = Err ErrNotFound.
Proof.
  assert (DeleteObject one_record uuid1 = (∅, None)) as Hdel by (by vm_compute).
  split; [done|].
  exact (DeleteObject_then_GetObjectByID one_record uuid1 ∅ Hdel).
Defined.

Lemma backend_invariants_witness :
  is_uuid uuid2 = true ∧
  keyed_by_uuid (Part000.Store one_record uuid2 fluffy_person).1.1 ∧
  readable (Time:=string) (Part000.Store one_record uuid2 fluffy_person).1.1.
Proof.
  destruct (backend_invariants one_record uuid2 fluffy_person eq_refl)
    as (_ & _ & Hkeyed & Hreadable).
  split; [reflexivity|]. split.
  - apply Hkeyed, keyed_one_record.
  - by apply Hreadable; [apply readable_one_record| |].
Defined.






Lemma GetObjectByID_own_key_witness :
  is_uuid uuid1 = true ∧
  GetObjectByID one_record uuid1 = Ok (SetID fluffy uuid1) ∧
  ∃ rest value, one_record !! (uuid1 +:+ "::" +:+ rest) = Some value ∧
                extractObject (uuid1 +:+ "::" +:+ rest) value
                = Ok (SetID fluffy uuid1) ∧
                matching_keys one_record (id_pattern uuid1)
                = [uuid1 +:+ "::" +:+ rest].
Proof.
  assert (GetObjectByID one_record uuid1 = Ok (SetID fluffy uuid1)) as Hget
    by (by vm_compute).
  split; [reflexivity|]. split; [done|].
  exact (GetObjectByID_own_key one_record uuid1 (SetID fluffy uuid1) eq_refl Hget).
Defined.

Lemma main_ends_in_Fatalf_witness :
  is_uuid uuid1 = true ∧ is_uuid uuid2 = true ∧ is_uuid uuid3 = true ∧
  time_stable (Time_zero (Time:=string)) ∧
  main (Time:=string) uuid1 uuid2 uuid3 = Fatalf ErrNotFound.
Proof.
  do 3 (split; [reflexivity|]). split; [reflexivity|].
  exact (main_ends_in_Fatalf uuid1 uuid2 uuid3 eq_refl eq_refl eq_refl eq_refl).
Defined.




Lemma Part000_Store_rejects_empty_witness :
  (GetName nameless = "" ∨ GetKind nameless = "") ∧
  (Part000.Store ∅ uuid1 nameless
   = (∅, nameless, Some (errors_New "missing object name")) ∨
   Part000.Store ∅ uuid1 nameless
   = (∅, nameless, Some (errors_New "missing object kind"))).
Proof.
  split; [by left|].
  apply (Part000_Store_rejects_empty ∅ uuid1 nameless). by left.
Defined.

Lemma DbGo_listObjects_first_kind_witness :
  DbGo.listObjects (DbGo.Store (DbGo.Store ∅ uuid1 fluffy).1.1 uuid2 fluffy_person).1.1
    (name_pattern "fluffy")
  = ([PersonPtr (getPerson "fluffy");
      PersonPtr (Person.mk "fluffy" "" "" "" "0001-01-01T00:00:00Z")], None) ∧
  Forall (λ o : @ObjectPtr string,
            GetKind o = getKind (first_key (matching_keys
              (DbGo.Store (DbGo.Store ∅ uuid1 fluffy).1.1 uuid2 fluffy_person).1.1
              (name_pattern "fluffy"))))
    [PersonPtr (getPerson "fluffy");
     PersonPtr (Person.mk "fluffy" "" "" "" "0001-01-01T00:00:00Z")].
Proof.
  assert (DbGo.listObjects
            (DbGo.Store (DbGo.Store ∅ uuid1 fluffy).1.1 uuid2 fluffy_person).1.1
            (name_pattern "fluffy")
          = ([PersonPtr (getPerson "fluffy");
              PersonPtr (Person.mk "fluffy" "" "" "" "0001-01-01T00:00:00Z")], None))
    as Hlist by (by vm_compute).
  split; [done|].
  exact (DbGo_listObjects_first_kind _ _ _ Hlist).
Defined.
